(** * openSourceHealthAnalysis: the Collector ([src/api_fetch.py]) and the
    Merger ([src/write_to_all.py]) as Rocq functions.

    Python values are JSON documents; a Python exception is an outcome of its
    own; the outside world (the HTTP server, the clock, the files written) is
    threaded through every call as an explicit state.

    What is kept of the scripts: every request, every look-up, test and
    assignment, every file written, and the expressions a [print] evaluates
    (they can raise).  What is left out: the text printed, [time.sleep], a
    [requests.get] that raises instead of answering, and a [save_data] that
    cannot write. *)

From Stdlib Require Import ZArith List String Ascii Bool Lia.
From Stdlib Require Import Floats.PrimFloat Numbers.Cyclic.Int63.Uint63.
Import ListNotations.

Local Open Scope string_scope.
Local Open Scope Z_scope.

Set Warnings "-register-all".

(** ** Python values and the operations the two scripts apply to them *)

Module Py.

(** What [json.load] and [response.json()] produce.  A [dict] keeps its
    insertion order, so it is an association list. *)
Inductive json : Type :=
| JNull
| JBool (b : bool)
| JInt (z : Z)
| JFloat (f : float)
| JStr (s : string)
| JArr (items : list json)
| JObj (fields : list (string * json)).

Definition dict : Type := list (string * json).

Inductive exn : Type :=
| TypeError
| KeyError
| AttributeError
| NameError
| JSONDecodeError
| OverflowError.

(** A call returns, raises, or is cut off by the bound put on its [while]
    loop. *)
Inductive outcome (A : Type) : Type :=
| Returned (a : A)
| Raised (e : exn)
| OutOfFuel.

Arguments Returned {A} a.
Arguments Raised {A} e.
Arguments OutOfFuel {A}.

Definition obind {A B} (c : outcome A) (k : A -> outcome B) : outcome B :=
  match c with
  | Returned a => k a
  | Raised e => Raised e
  | OutOfFuel => OutOfFuel
  end.

(** [d.get(key)] / [key in d] / [d[key] = v] on a dict. *)
Fixpoint dict_get (d : dict) (key : string) : option json :=
  match d with
  | [] => None
  | (k, v) :: rest => if String.eqb k key then Some v else dict_get rest key
  end.

Definition dict_mem (d : dict) (key : string) : bool :=
  match dict_get d key with Some _ => true | None => false end.

Fixpoint dict_set (d : dict) (key : string) (v : json) : dict :=
  match d with
  | [] => [(key, v)]
  | (k, old) :: rest =>
      if String.eqb k key then (k, v) :: rest else (k, old) :: dict_set rest key v
  end.

Definition dict_keys (d : dict) : list string := map fst d.

(** [needle in hay] on two strings. *)
Fixpoint contains_substring (needle hay : string) : bool :=
  String.prefix needle hay ||
  match hay with
  | EmptyString => false
  | String _ rest => contains_substring needle rest
  end.

(** [s.replace(old, new)] for one-character [old] and [new]. *)
Fixpoint replace_char (old new : ascii) (s : string) : string :=
  match s with
  | EmptyString => EmptyString
  | String c rest =>
      String (if Ascii.eqb c old then new else c) (replace_char old new rest)
  end.

Definition is_str (key : string) (v : json) : bool :=
  match v with JStr s => String.eqb s key | _ => false end.

(** [bool(v)]. *)
Definition truthy (v : json) : bool :=
  match v with
  | JNull => false
  | JBool b => b
  | JInt z => negb (z =? 0)
  | JFloat f => negb (PrimFloat.eqb f PrimFloat.zero)
  | JStr s => negb (String.eqb s "")
  | JArr items => match items with [] => false | _ => true end
  | JObj fields => match fields with [] => false | _ => true end
  end.

(** [len(v)]. *)
Definition py_len (v : json) : outcome Z :=
  match v with
  | JStr s => Returned (Z.of_nat (String.length s))
  | JArr items => Returned (Z.of_nat (List.length items))
  | JObj fields => Returned (Z.of_nat (List.length fields))
  | _ => Raised TypeError
  end.

Fixpoint chars (s : string) : list json :=
  match s with
  | EmptyString => []
  | String c rest => JStr (String c EmptyString) :: chars rest
  end.

(** What [for x in v] goes through. *)
Definition py_iter (v : json) : outcome (list json) :=
  match v with
  | JArr items => Returned items
  | JObj fields => Returned (map (fun kv => JStr (fst kv)) fields)
  | JStr s => Returned (chars s)
  | _ => Raised TypeError
  end.

(** [key in v] for a string [key]. *)
Definition py_in (key : string) (v : json) : outcome bool :=
  match v with
  | JObj fields => Returned (dict_mem fields key)
  | JArr items => Returned (existsb (is_str key) items)
  | JStr s => Returned (contains_substring key s)
  | _ => Raised TypeError
  end.

(** [v[key]] for a string [key]. *)
Definition py_getitem (v : json) (key : string) : outcome json :=
  match v with
  | JObj fields =>
      match dict_get fields key with
      | Some x => Returned x
      | None => Raised KeyError
      end
  | _ => Raised TypeError
  end.

(** [v[key] = x] for a string [key]; the updated container is returned. *)
Definition py_setitem (v : json) (key : string) (x : json) : outcome json :=
  match v with
  | JObj fields => Returned (JObj (dict_set fields key x))
  | _ => Raised TypeError
  end.

(** [v.get(key, default)]. *)
Definition py_get (v : json) (key : string) (default : json) : outcome json :=
  match v with
  | JObj fields =>
      match dict_get fields key with
      | Some x => Returned x
      | None => Returned default
      end
  | _ => Raised AttributeError
  end.

(** The float of a small non-negative integer constant (exact below 2^53). *)
Definition float_of_int (n : Z) : float := PrimFloat.of_uint63 (Uint63.of_Z n).

(** [v < n] for an integer constant [n]. *)
Definition py_lt (v : json) (n : Z) : outcome bool :=
  match v with
  | JInt z => Returned (z <? n)
  | JBool b => Returned ((if b then 1 else 0) <? n)
  | JFloat f => Returned (PrimFloat.ltb f (float_of_int n))
  | _ => Raised TypeError
  end.

(** [l[:n]]: a negative [n] counts from the end. *)
Definition slice_to {A} (l : list A) (n : Z) : list A :=
  if 0 <=? n then firstn (Z.to_nat n) l
  else firstn (List.length l - Z.to_nat (- n)) l.

End Py.

(** ** [src/api_fetch.py]: the Collector *)

Module ApiFetch.
Import Py.

(** What [requests.get(url, headers=..., params=...)] sends and what it gets
    back.  [content = None] is a body that is not a JSON document, on which
    [response.json()] raises. *)
Record request : Type := mk_request {
  url : string;
  headers : dict;
  params : dict
}.

Record response : Type := mk_response {
  status_code : Z;
  content : option json
}.

Definition response_json (r : response) : outcome json :=
  match content r with
  | Some j => Returned j
  | None => Raised JSONDecodeError
  end.

(** The world outside the process: the requests sent so far, the files
    [save_data] wrote so far (both oldest first), and how many times the
    clock was read. *)
Record world : Type := mk_world {
  requests : list request;
  files : list (string * json);
  clock_reads : nat
}.

Definition initial_world : world := mk_world [] [] 0.

(** A computation in the world; the world survives an exception. *)
Definition M (A : Type) : Type := world -> outcome A * world.

Definition ret {A} (a : A) : M A := fun w => (Returned a, w).

Definition bind {A B} (c : M A) (k : A -> M B) : M B :=
  fun w =>
    match c w with
    | (Returned a, w') => k a w'
    | (Raised e, w') => (Raised e, w')
    | (OutOfFuel, w') => (OutOfFuel, w')
    end.

Definition lift {A} (o : outcome A) : M A := fun w => (o, w).

Notation "x <- c ;; k" := (bind c (fun x => k))
  (at level 61, c at next level, right associativity).

Definition BASE_URL : string := "https://api.github.com".

Definition REPOSITORIES : list string :=
  [ "pandas-dev/pandas";
    "numpy/numpy";
    "scikit-learn/scikit-learn";
    "apache/airflow";
    "mlflow/mlflow" ].

Definition per_page : Z := 100.

Section Collector.

(** The credential read from the environment. *)
Variable GITHUB_TOKEN : string.

(** The server: its answer to a request, given how many requests it has
    received before. *)
Variable server : nat -> request -> response.

(** The clock: the [k]-th reading of [datetime.now()], as [strftime] with
    the run's format and as [isoformat] print it. *)
Variable strftime_now : nat -> string.
Variable isoformat_now : nat -> string.

(** Whether the platform's [localtime] accepts a numeric timestamp. *)
Variable localtime_ok : json -> bool.

Definition HEADERS : dict :=
  [ ("Authorization", JStr ("token " ++ GITHUB_TOKEN));
    ("Accept", JStr "application/vnd.github.v3+json") ].

Definition requests_get (u : string) (ps : dict) : M response :=
  fun w =>
    let rq := mk_request u HEADERS ps in
    (Returned (server (List.length (requests w)) rq),
     mk_world (requests w ++ [rq])%list (files w) (clock_reads w)).

Definition datetime_now : M nat :=
  fun w =>
    (Returned (clock_reads w),
     mk_world (requests w) (files w) (S (clock_reads w))).

(** [datetime.fromtimestamp(v)], for its failures only: the date is printed
    and dropped. *)
Definition datetime_fromtimestamp (v : json) : outcome unit :=
  match v with
  | JInt _ | JFloat _ | JBool _ =>
      if localtime_ok v then Returned tt else Raised OverflowError
  | _ => Raised TypeError
  end.

(** [check_rate_limit()].  The two [print]s are kept for the look-ups they
    evaluate. *)
Definition check_rate_limit : M json :=
  response <- requests_get (BASE_URL ++ "/rate_limit") [] ;;
  if status_code response =? 200 then
    data <- lift (response_json response) ;;
    resources <- lift (py_getitem data "resources") ;;
    core <- lift (py_getitem resources "core") ;;
    _ <- lift (py_getitem core "remaining") ;;
    _ <- lift (py_getitem core "limit") ;;
    reset <- lift (py_getitem core "reset") ;;
    _ <- lift (datetime_fromtimestamp reset) ;;
    lift (py_getitem core "remaining")
  else ret (JInt 0).

Definition issues_request_params (page : Z) : dict :=
  [ ("state", JStr "all");
    ("per_page", JInt per_page);
    ("page", JInt page);
    ("sort", JStr "created");
    ("direction", JStr "desc") ].

Definition issues_url (repo : string) : string :=
  BASE_URL ++ "/repos/" ++ repo ++ "/issues".

(** [[issue for issue in batch if 'pull_request' not in issue]], on the
    items [batch] iterates over. *)
Fixpoint without_pull_requests (items : list json) : outcome (list json) :=
  match items with
  | [] => Returned []
  | issue :: rest =>
      obind (py_in "pull_request" issue) (fun marked =>
      obind (without_pull_requests rest) (fun kept =>
      Returned (if marked then kept else issue :: kept)))
  end.

(** [not batch or len(batch) == 0]. *)
Definition is_empty_batch (batch : json) : outcome bool :=
  if negb (truthy batch) then Returned true
  else obind (py_len batch) (fun n => Returned (n =? 0)).

(** The [while] loop of [fetch_issues]; the result is [issues] when the loop
    is left.  One unit of [fuel] is one request. *)
Fixpoint fetch_issues_loop (fuel : nat) (repo : string) (max_issues : Z)
    (issues : list json) (page : Z) : M (list json) :=
  if Z.of_nat (List.length issues) <? max_issues then
    match fuel with
    | O => lift OutOfFuel
    | S fuel' =>
        response <- requests_get (issues_url repo) (issues_request_params page) ;;
        if status_code response =? 200 then
          batch <- lift (response_json response) ;;
          empty <- lift (is_empty_batch batch) ;;
          if empty then ret issues
          else
            actual_issues <- lift (obind (py_iter batch) without_pull_requests) ;;
            let issues := (issues ++ actual_issues)%list in
            let page := page + 1 in
            if Z.of_nat (List.length issues) >=? max_issues then ret issues
            else fetch_issues_loop fuel' repo max_issues issues page
        else
          _ <- lift (obind (response_json response)
                       (fun j => py_get j "message" (JStr "Unknown error"))) ;;
          ret issues
    end
  else ret issues.

Definition fetch_issues (fuel : nat) (repo : string) (max_issues : Z)
  : M (list json) :=
  issues <- fetch_issues_loop fuel repo max_issues [] 1 ;;
  ret (slice_to issues max_issues).

Definition commits_request_params (page : Z) : dict :=
  [ ("per_page", JInt per_page);
    ("page", JInt page) ].

Definition commits_url (repo : string) : string :=
  BASE_URL ++ "/repos/" ++ repo ++ "/commits".

(** The [while] loop of [fetch_commits]. *)
Fixpoint fetch_commits_loop (fuel : nat) (repo : string) (max_commits : Z)
    (commits : list json) (page : Z) : M (list json) :=
  if Z.of_nat (List.length commits) <? max_commits then
    match fuel with
    | O => lift OutOfFuel
    | S fuel' =>
        response <- requests_get (commits_url repo) (commits_request_params page) ;;
        if status_code response =? 200 then
          batch <- lift (response_json response) ;;
          empty <- lift (is_empty_batch batch) ;;
          if empty then ret commits
          else
            items <- lift (py_iter batch) ;;
            let commits := (commits ++ items)%list in
            let page := page + 1 in
            n <- lift (py_len batch) ;;
            if n <? per_page then ret commits
            else fetch_commits_loop fuel' repo max_commits commits page
        else
          _ <- lift (obind (response_json response)
                       (fun j => py_get j "message" (JStr "Unknown error"))) ;;
          ret commits
    end
  else ret commits.

Definition fetch_commits (fuel : nat) (repo : string) (max_commits : Z)
  : M (list json) :=
  commits <- fetch_commits_loop fuel repo max_commits [] 1 ;;
  ret (slice_to commits max_commits).

(** [fetch_repo_info(repo)]; [None] is [JNull]. *)
Definition fetch_repo_info (repo : string) : M json :=
  response <- requests_get (BASE_URL ++ "/repos/" ++ repo) [] ;;
  if status_code response =? 200 then lift (response_json response)
  else ret JNull.

(** [save_data(data, filename)]: the file lands under [data/raw]. *)
Definition save_data (data : json) (filename : string) : M unit :=
  fun w =>
    (Returned tt,
     mk_world (requests w)
              (List.app (files w) [("data/raw/" ++ filename, data)])
              (clock_reads w)).

Definition repo_filename (repo timestamp : string) : string :=
  replace_char "/"%char "_"%char repo ++ "_" ++ timestamp ++ ".json".

Definition all_repos_filename (timestamp : string) : string :=
  "all_repos_" ++ timestamp ++ ".json".

(** The body of the [for repo in REPOSITORIES] loop of [main], up to the
    test that decides the [break]: the updated [all_data], and whether the
    rate limit left is below 50. *)
Definition visit (fuel : nat) (timestamp repo : string) (all_data : dict)
  : M (dict * bool) :=
  t <- datetime_now ;;
  let repo_data : dict :=
    [ ("repository", JStr repo);
      ("collected at", JStr (isoformat_now t));
      ("info", JNull);
      ("issues", JArr []);
      ("commits", JArr []) ] in
  info <- fetch_repo_info repo ;;
  let repo_data := dict_set repo_data "info" info in
  issues <- fetch_issues fuel repo 100 ;;
  let repo_data := dict_set repo_data "issues" (JArr issues) in
  commits <- fetch_commits fuel repo 100 ;;
  let repo_data := dict_set repo_data "commits" (JArr commits) in
  let all_data := dict_set all_data repo (JObj repo_data) in
  _ <- save_data (JObj repo_data) (repo_filename repo timestamp) ;;
  remaining <- check_rate_limit ;;
  low <- lift (py_lt remaining 50) ;;
  ret (all_data, low).

(** The loop itself, from the repositories still to visit; the result is
    [all_data] when the loop is left. *)
Fixpoint collect (fuel : nat) (timestamp : string) (repos : list string)
    (all_data : dict) : M dict :=
  match repos with
  | [] => ret all_data
  | repo :: rest =>
      step <- visit fuel timestamp repo all_data ;;
      if snd step then ret (fst step)
      else collect fuel timestamp rest (fst step)
  end.

(** The summary loop at the end of [main]: its [print]s evaluate
    [len(data['issues'])] and [len(data['commits'])]. *)
Fixpoint summary (entries : dict) : outcome unit :=
  match entries with
  | [] => Returned tt
  | (repo, data) :: rest =>
      obind (obind (py_getitem data "issues") py_len) (fun _ =>
      obind (obind (py_getitem data "commits") py_len) (fun _ =>
      summary rest))
  end.

Definition main (fuel : nat) : M unit :=
  remainig <- check_rate_limit ;;
  low <- lift (py_lt remainig 100) ;;
  if low then ret tt
  else
    t <- datetime_now ;;
    let timestamp := strftime_now t in
    all_data <- collect fuel timestamp REPOSITORIES [] ;;
    _ <- save_data (JObj all_data) (all_repos_filename timestamp) ;;
    lift (summary all_data).

End Collector.

(** *** Simulated sources, for stating what the Collector does *)

(** The request [fetch_issues] / [fetch_commits] / [check_rate_limit] sends. *)
Definition issues_request (token repo : string) (page : Z) : request :=
  mk_request (issues_url repo) (HEADERS token) (issues_request_params page).

Definition commits_request (token repo : string) (page : Z) : request :=
  mk_request (commits_url repo) (HEADERS token) (commits_request_params page).

Definition rate_limit_request (token : string) : request :=
  mk_request (BASE_URL ++ "/rate_limit") (HEADERS token) [].

(** The world once one more request went out. *)
Definition sent (w : world) (rq : request) : world :=
  mk_world (requests w ++ [rq])%list (files w) (clock_reads w).

(** The answer the server gives to [rq] in the world [w]. *)
Definition answer (server : nat -> request -> response) (w : world)
    (rq : request) : response :=
  server (List.length (requests w)) rq.

(** An item on which ['pull_request' in item] is false. *)
Definition unmarked (item : json) : Prop :=
  py_in "pull_request" item = Returned false.

(** A successful page: status 200 and a JSON array of objects. *)
Definition ok_page (batch : list dict) : response :=
  mk_response 200 (Some (JArr (map JObj batch))).

(** The items of a page that carry no pull-request marker. *)
Definition is_issue (item : dict) : bool := negb (dict_mem item "pull_request").

Definition issues_only (batch : list dict) : list dict := filter is_issue batch.

(** A finite paginated source: page [first + k] is the [k]-th batch of
    [pages], and the page after the last one is empty. *)
Definition serves (server : nat -> request -> response)
    (rq : Z -> request) (first : Z) (pages : list (list dict)) : Prop :=
  forall (n k : nat), (k <= List.length pages)%nat ->
    server n (rq (first + Z.of_nat k)) = ok_page (nth k pages []).

(** The pages a fetch reads before an empty page stops it. *)
Fixpoint until_empty (pages : list (list dict)) : list (list dict) :=
  match pages with
  | [] => []
  | [] :: _ => []
  | batch :: rest => batch :: until_empty rest
  end.

(** The pages [fetch_commits] reads: up to an empty page, or through the
    first page shorter than [per_page]. *)
Fixpoint until_short (pages : list (list dict)) : list (list dict) :=
  match pages with
  | [] => []
  | [] :: _ => []
  | batch :: rest =>
      if Z.of_nat (List.length batch) <? per_page then [batch]
      else batch :: until_short rest
  end.

(** Page sizes go strictly down. *)
Fixpoint strictly_decreasing (pages : list (list dict)) : Prop :=
  match pages with
  | [] => True
  | batch :: rest =>
      match rest with
      | [] => True
      | next :: _ => (List.length next < List.length batch)%nat
      end /\ strictly_decreasing rest
  end.

(** A rate-limit response that reports [remaining]: every look-up of
    [check_rate_limit] finds its key and the reset time is a date. *)
Definition reports (localtime_ok : json -> bool) (r : response)
    (remaining : Z) : Prop :=
  status_code r = 200 /\
  exists data resources core limit reset,
    content r = Some data /\
    py_getitem data "resources" = Returned resources /\
    py_getitem resources "core" = Returned core /\
    py_getitem core "remaining" = Returned (JInt remaining) /\
    py_getitem core "limit" = Returned limit /\
    py_getitem core "reset" = Returned reset /\
    datetime_fromtimestamp localtime_ok reset = Returned tt.

(** The page a request asks for; 0 when it asks for none. *)
Definition page_number (rq : request) : Z :=
  match dict_get (params rq) "page" with
  | Some (JInt page) => page
  | _ => 0
  end.

(** A server that replays [pages] and then empty pages. *)
Definition replay (pages : list (list dict)) : nat -> request -> response :=
  fun _ rq => ok_page (nth (Z.to_nat (page_number rq - 1)) pages []).

(** A server that replays [pages] and then answers [failure]. *)
Definition replay_then (pages : list (list dict)) (failure : response)
  : nat -> request -> response :=
  fun _ rq =>
    match nth_error pages (Z.to_nat (page_number rq - 1)) with
    | Some batch => ok_page batch
    | None => failure
    end.

(** A rate-limit answer that reports [remaining]. *)
Definition rate_limit_page (remaining : Z) : response :=
  mk_response 200
    (Some (JObj [("resources",
                  JObj [("core",
                         JObj [("limit", JInt 5000);
                               ("remaining", JInt remaining);
                               ("reset", JInt 1700000000)])])])).

(** A whole API: [quota n] is the count left when [n] requests were
    received, every repository has the same [pages] of issues and of
    commits, and its description is a small object. *)
Definition github (quota : nat -> Z) (pages : list (list dict))
  : nat -> request -> response :=
  fun n rq =>
    if String.eqb (url rq) (BASE_URL ++ "/rate_limit") then rate_limit_page (quota n)
    else if page_number rq =? 0 then mk_response 200 (Some (JObj [("id", JInt 1)]))
    else replay pages n rq.

(** Sample items. *)
Definition issue_7 : dict := [("number", JInt 7); ("title", JStr "crash")].
Definition pull_8 : dict := [("number", JInt 8); ("pull_request", JObj [])].
Definition issue_9 : dict := [("number", JInt 9)].

Definition shrinking_pages : list (list dict) := [[issue_7; pull_8]; [issue_9]].

Definition server_error : response :=
  mk_response 500 (Some (JObj [("message", JStr "Server Error")])).

Definition bad_gateway : response := mk_response 502 None.

(** The world once the clock was read once more. *)
Definition tick (w : world) : world :=
  mk_world (requests w) (files w) (S (clock_reads w)).

(** A computation that writes no file. *)
Definition keeps_files {A} (c : M A) : Prop :=
  forall w, files (snd (c w)) = files w.

(** A value that carries a list of issues and a list of commits, as the
    summary of [main] reads them. *)
Definition snapshot (data : json) : Prop :=
  exists issues commits,
    py_getitem data "issues" = Returned (JArr issues) /\
    py_getitem data "commits" = Returned (JArr commits).

(** [all_data[repo] = data] for each entry in turn. *)
Definition record_all (entries all_data : dict) : dict :=
  fold_left (fun d entry => dict_set d (fst entry) (snd entry)) entries all_data.

(** How many of the written [files] carry the name [name]. *)
Definition times_written (name : string) (fs : list (string * json)) : nat :=
  List.length (filter (fun f => String.eqb (fst f) name) fs).

(** The file [main] writes for one entry of [all_data]. *)
Definition repo_file (timestamp : string) (entry : string * json)
  : string * json :=
  ("data/raw/" ++ repo_filename (fst entry) timestamp, snd entry).

(** A paginated source that breaks: page [first + k] is the [k]-th batch of
    [pages], and the page after the last one gets the answer [failure]. *)
Definition serves_then (server : nat -> request -> response)
    (rq : Z -> request) (first : Z) (pages : list (list dict))
    (failure : response) : Prop :=
  (forall (n k : nat), (k < List.length pages)%nat ->
     server n (rq (first + Z.of_nat k)) = ok_page (nth k pages [])) /\
  (forall n : nat,
     server n (rq (first + Z.of_nat (List.length pages))) = failure).

(** The combined file [main] writes last. *)
Definition combined_file (timestamp : string) (all_data : dict)
  : string * json :=
  ("data/raw/" ++ all_repos_filename timestamp, JObj all_data).

(** A server whose successful pages of issues are lists of objects and, when
    not empty, hold at least one item that is not a pull request. *)
Definition no_page_of_pull_requests_only (server : nat -> request -> response)
    (token repo : string) : Prop :=
  forall (n : nat) (page : Z),
    status_code (server n (issues_request token repo page)) = 200 ->
    exists batch,
      server n (issues_request token repo page) = ok_page batch /\
      (batch = [] \/ issues_only batch <> []).

(** A server whose issues of [repo] are [pages] and then [failure], and
    whose every other answer is [failure]. *)
Definition broken_after (repo : string) (pages : list (list dict))
    (failure : response) : nat -> request -> response :=
  fun n rq =>
    if String.eqb (url rq) (issues_url repo) then replay_then pages failure n rq
    else failure.

(** An API with quota left whose every other answer is a bad gateway. *)
Definition gateway_down : nat -> request -> response :=
  fun n rq =>
    if String.eqb (url rq) (BASE_URL ++ "/rate_limit") then rate_limit_page 5000
    else bad_gateway.

(** The [k] page numbers from [page] on. *)
Fixpoint pages_from (page : Z) (k : nat) : list Z :=
  match k with
  | O => []
  | S k' => page :: pages_from (page + 1) k'
  end.

(** A computation that reads the clock no more than it did. *)
Definition keeps_clock {A} (c : M A) : Prop :=
  forall w, clock_reads (snd (c w)) = clock_reads w.

(** A computation whose new files all carry a name that is [allowed]. *)
Definition writes_only {A} (allowed : string -> Prop) (c : M A) : Prop :=
  forall w, exists fs,
    files (snd (c w)) = (files w ++ fs)%list /\
    Forall (fun f => allowed (fst f)) fs.

(** The name of a per-repository file of the run stamped [timestamp]. *)
Definition repo_file_of (timestamp : string) (name : string) : Prop :=
  exists repo, In repo REPOSITORIES /\
               name = "data/raw/" ++ repo_filename repo timestamp.

(** An entry of [all_data] as [main] builds it: the five fields in their
    order, the repository under its own name, at most 100 issues, none of
    them marked, and at most 100 commits. *)
Definition repository_snapshot (entry : string * json) : Prop :=
  exists (collected : string) (info : json) (issues commits : list json),
    snd entry =
      JObj [ ("repository", JStr (fst entry));
             ("collected at", JStr collected);
             ("info", info);
             ("issues", JArr issues);
             ("commits", JArr commits) ] /\
    Z.of_nat (List.length issues) <= 100 /\
    Forall unmarked issues /\
    Z.of_nat (List.length commits) <= 100.

End ApiFetch.

(** ** [src/write_to_all.py]: the Merger *)

Module WriteToAll.
Import Py.

Definition KEYS : list string :=
  [ "pandas-dev/pandas";
    "numpy/numpy";
    "scikit-learn/scikit-learn";
    "apache/airflow";
    "mlflow/mlflow" ].

(** [data[key]['repository'] = key]: the nested value is updated in place,
    inside [data]. *)
Definition stamp_repository (data : json) (key : string) : outcome json :=
  obind (py_getitem data key) (fun nested =>
  obind (py_setitem nested "repository" (JStr key)) (fun nested' =>
  py_setitem data key nested')).

(** [for key in KEYS: if key in data: data[key]['repository'] = key].
    [key] is the binding of the loop variable so far, [None] while it is
    unbound; the result carries the binding the loop leaves behind. *)
Fixpoint stamp_keys (keys : list string) (key : option string) (data : json)
  : outcome (option string * json) :=
  match keys with
  | [] => Returned (key, data)
  | k :: rest =>
      obind (py_in k data) (fun present =>
      if present then
        obind (stamp_repository data k) (fun data' =>
        stamp_keys rest (Some k) data')
      else stamp_keys rest (Some k) data)
  end.

(** The body of the [try]: a file is its parsed content, or [None] when
    [open] or [json.load] raises.  The assignment [combined_data[key] = data]
    comes after the loop over [KEYS]. *)
Definition load (content : option json) (combined_data : dict) : outcome dict :=
  obind (match content with
         | Some data => Returned data
         | None => Raised JSONDecodeError
         end) (fun data =>
  obind (stamp_keys KEYS None data) (fun '(key, data) =>
  match key with
  | Some k => Returned (dict_set combined_data k data)
  | None => Raised NameError
  end)).

(** The [for json_file in json_files] loop: [except Exception] drops the
    file and goes on. *)
Fixpoint combine (json_files : list (string * option json))
    (combined_data : dict) : dict :=
  match json_files with
  | [] => combined_data
  | (name, content) :: rest =>
      match load content combined_data with
      | Returned combined_data' => combine rest combined_data'
      | _ => combine rest combined_data
      end
  end.

Section Merger.

(** The module-level [timestamp], read when the script starts. *)
Variable timestamp : string.

(** [save_data(data, filename)], as the file it leaves. *)
Definition save_data (data : json) (filename : string) : string * json :=
  ("data/raw/" ++ filename, data).

(** [main()], from the listing of [data/raw/*.json] in the order of the
    directory ([None]: there is no such directory), to the files written. *)
Definition main (listing : option (list (string * option json)))
  : list (string * json) :=
  match listing with
  | None => []
  | Some json_files =>
      match json_files with
      | [] => []
      | _ =>
          let combined_data := combine json_files [] in
          let output_filename := "combined_data_" ++ timestamp ++ ".json" in
          [save_data (JObj combined_data) output_filename]
      end
  end.

End Merger.

(** *** Reading the merged document *)

(** What one file contributes: its content once every identifier present is
    stamped, or nothing when the [try] body raises. *)
Definition loaded (content : option json) : option json :=
  match content with
  | None => None
  | Some data =>
      match stamp_keys KEYS None data with
      | Returned (_, data') => Some data'
      | _ => None
      end
  end.

(** The contribution of the last file that contributes one. *)
Fixpoint last_loaded (json_files : list (string * option json)) (d : option json)
  : option json :=
  match json_files with
  | [] => d
  | (_, content) :: rest =>
      match loaded content with
      | Some data => last_loaded rest (Some data)
      | None => last_loaded rest d
      end
  end.

(** The content of the last file that parses. *)
Fixpoint last_parsed (json_files : list (string * option json)) (d : option json)
  : option json :=
  match json_files with
  | [] => d
  | (_, content) :: rest =>
      match content with
      | Some data => last_parsed rest (Some data)
      | None => last_parsed rest d
      end
  end.

(** The stamping in words: an entry under one of [keys] must hold a mapping,
    whose [repository] becomes the key; the other entries stay. *)
Definition stamped_entry (keys : list string) (entry : string * json)
  : option (string * json) :=
  if existsb (String.eqb (fst entry)) keys then
    match snd entry with
    | JObj nested =>
        Some (fst entry, JObj (dict_set nested "repository" (JStr (fst entry))))
    | _ => None
    end
  else Some entry.

Fixpoint stamped (keys : list string) (fields : dict) : option dict :=
  match fields with
  | [] => Some []
  | entry :: rest =>
      match stamped_entry keys entry, stamped keys rest with
      | Some entry', Some rest' => Some (entry' :: rest')
      | _, _ => None
      end
  end.

(** A merged document: one entry under the last identifier, or none. *)
Definition merged (d : option json) : dict :=
  match d with
  | Some data => [("mlflow/mlflow", data)]
  | None => []
  end.

(** The listing of a directory that holds the files [fs], all of them well
    formed, in the order they were written. *)
Definition listing_of (fs : list (string * json))
  : list (string * option json) :=
  map (fun f => (fst f, Some (snd f))) fs.

(** [true] on a file the loop skips. *)
Definition skipped (file : string * option json) : bool :=
  match loaded (snd file) with
  | Some _ => false
  | None => true
  end.

(** Sample listings of [data/raw]. *)
Definition two_numpy_files : list (string * option json) :=
  [ ("first.json",
     Some (JObj [("numpy/numpy",
                  JObj [("repository", JStr "x"); ("issues", JArr [])])]));
    ("second.json",
     Some (JObj [("numpy/numpy",
                  JObj [("repository", JStr "y"); ("commits", JArr [])])])) ].

Definition unstampable_last : list (string * option json) :=
  [ ("a.json", Some (JObj [("a", JInt 1)]));
    ("b.json", Some (JObj [("numpy/numpy", JInt 5)])) ].

Definition restamped : list (string * option json) :=
  [ ("c.json",
     Some (JObj [("numpy/numpy", JObj [("repository", JStr "old")])])) ].

End WriteToAll.

(** ** Facts about the Collector *)

Module CollectorFacts.
Import Py ApiFetch.

Lemma without_pull_requests_objects (batch : list dict) :
  without_pull_requests (map JObj batch) = Returned (map JObj (issues_only batch)).
Proof.
  induction batch as [|item rest IH]; [reflexivity|].
  cbn [map without_pull_requests py_in obind issues_only filter].
  rewrite IH. cbn [obind]. unfold is_issue.
  destruct (dict_mem item "pull_request"); reflexivity.
Qed.

Lemma is_empty_batch_objects (batch : list dict) :
  is_empty_batch (JArr (map JObj batch)) =
  Returned (match batch with [] => true | _ => false end).
Proof.
  destruct batch as [|item rest]; [reflexivity|].
  unfold is_empty_batch. cbn [map truthy negb py_len obind].
  destruct (Z.eqb_spec (Z.of_nat (List.length (JObj item :: map JObj rest))) 0) as [E|E];
    [cbn [List.length] in E; lia | reflexivity].
Qed.

Lemma without_pull_requests_unmarked (items kept : list json) :
  without_pull_requests items = Returned kept -> Forall unmarked kept.
Proof.
  revert kept. induction items as [|item rest IH]; intros kept H.
  - injection H as <-. constructor.
  - cbn [without_pull_requests] in H.
    destruct (py_in "pull_request" item) as [marked| |] eqn:E; cbn [obind] in H;
      try discriminate.
    destruct (without_pull_requests rest) as [kept'| |]; cbn [obind] in H;
      try discriminate.
    injection H as <-. destruct marked; [auto|].
    constructor; [exact E | auto].
Qed.

Lemma firstn_Forall {A} (P : A -> Prop) (l : list A) :
  Forall P l -> forall n, Forall P (firstn n l).
Proof.
  induction 1 as [|x l Hx Hl IH]; intros [|n]; cbn [firstn]; auto.
Qed.

Lemma slice_to_firstn {A} (l : list A) (n : Z) :
  0 <= n -> slice_to l n = firstn (Z.to_nat n) l.
Proof.
  intros H. unfold slice_to. destruct (Z.leb_spec 0 n); [reflexivity | lia].
Qed.

Lemma slice_to_nil {A} (n : Z) : slice_to (@nil A) n = [].
Proof.
  unfold slice_to. destruct (0 <=? n); apply firstn_nil.
Qed.

(** *** Dicts built key by key *)

Lemma dict_set_fresh (d : dict) (key : string) (v : json) :
  ~ In key (dict_keys d) -> dict_set d key v = (d ++ [(key, v)])%list.
Proof.
  induction d as [|[k old] rest IH]; intros Hfresh; [reflexivity|].
  cbn [dict_set app]. cbn [dict_keys map fst In] in Hfresh.
  destruct (String.eqb_spec k key) as [E|_]; [tauto|].
  rewrite IH; [reflexivity|]. intros Hin. apply Hfresh. right. exact Hin.
Qed.

Lemma record_all_fresh (entries : dict) :
  forall all_data : dict,
  NoDup (dict_keys all_data ++ dict_keys entries) ->
  record_all entries all_data = (all_data ++ entries)%list.
Proof.
  induction entries as [|[key v] rest IH]; intros all_data Hfresh.
  - cbn [record_all fold_left]. rewrite app_nil_r. reflexivity.
  - cbn [record_all fold_left fst snd]. fold (record_all rest).
    cbn [dict_keys map fst] in Hfresh.
    rewrite dict_set_fresh.
    + rewrite IH.
      * rewrite <- app_assoc. reflexivity.
      * unfold dict_keys. rewrite map_app. cbn [map fst].
        rewrite <- app_assoc. exact Hfresh.
    + apply NoDup_remove_2 in Hfresh. intros Hin. apply Hfresh.
      apply in_or_app. left. exact Hin.
Qed.

Lemma firstn_NoDup {A} (l : list A) :
  NoDup l -> forall n, NoDup (firstn n l).
Proof.
  induction 1 as [|x l Hx Hl IH]; intros [|n]; cbn [firstn]; try constructor.
  - intros Hin. apply Hx. revert Hin. clear. revert n.
    induction l as [|y l IHl]; intros [|n]; cbn [firstn In]; try tauto.
    intros [->|Hin]; [left; reflexivity | right; eauto].
  - apply IH.
Qed.


Lemma summary_snapshots (entries : dict) :
  Forall (fun entry => snapshot (snd entry)) entries ->
  summary entries = Returned tt.
Proof.
  induction 1 as [|[repo data] rest Hdata _ IH]; [reflexivity|].
  destruct Hdata as (issues & commits & Hi & Hc). cbn [snd] in Hi, Hc.
  cbn [summary]. rewrite Hi, Hc. cbn [obind py_len]. exact IH.
Qed.

Lemma REPOSITORIES_NoDup : NoDup REPOSITORIES.
Proof.
  unfold REPOSITORIES. repeat constructor; cbn [In]; intuition discriminate.
Qed.

(** No per-repository file takes the name of the combined one. *)
Lemma repo_file_name (timestamp repo : string) :
  In repo REPOSITORIES ->
  String.eqb ("data/raw/" ++ repo_filename repo timestamp)
             ("data/raw/" ++ all_repos_filename timestamp) = false.
Proof.
  intros Hin. apply String.eqb_neq.
  unfold REPOSITORIES in Hin. cbn [In] in Hin.
  unfold repo_filename, all_repos_filename.
  destruct Hin as [<-|[<-|[<-|[<-|[<-|[]]]]]]; cbn; discriminate.
Qed.

Lemma times_written_elsewhere (name : string) (fs : list (string * json)) :
  Forall (fun f => String.eqb (fst f) name = false) fs ->
  times_written name fs = 0%nat.
Proof.
  unfold times_written. induction 1 as [|f rest Hf _ IH]; [reflexivity|].
  cbn [filter]. rewrite Hf. exact IH.
Qed.

Section Facts.

Variable GITHUB_TOKEN : string.
Variable server : nat -> request -> response.
Variable strftime_now : nat -> string.
Variable isoformat_now : nat -> string.
Variable localtime_ok : json -> bool.

Local Abbreviation requests_get := (requests_get GITHUB_TOKEN server).
Local Abbreviation check_rate_limit := (check_rate_limit GITHUB_TOKEN server localtime_ok).
Local Abbreviation fetch_issues_loop := (fetch_issues_loop GITHUB_TOKEN server).
Local Abbreviation fetch_issues := (fetch_issues GITHUB_TOKEN server).
Local Abbreviation fetch_commits_loop := (fetch_commits_loop GITHUB_TOKEN server).
Local Abbreviation fetch_commits := (fetch_commits GITHUB_TOKEN server).
Local Abbreviation fetch_repo_info := (fetch_repo_info GITHUB_TOKEN server).
Local Abbreviation visit := (visit GITHUB_TOKEN server isoformat_now localtime_ok).
Local Abbreviation collect := (collect GITHUB_TOKEN server isoformat_now localtime_ok).
Local Abbreviation main :=
  (main GITHUB_TOKEN server strftime_now isoformat_now localtime_ok).
Local Abbreviation issues_request := (issues_request GITHUB_TOKEN).
Local Abbreviation commits_request := (commits_request GITHUB_TOKEN).
Local Abbreviation rate_limit_request := (rate_limit_request GITHUB_TOKEN).

Local Abbreviation answer := (answer server).

Lemma requests_get_sent (u : string) (ps : dict) (w : world) :
  requests_get u ps w =
  (Returned (answer w (mk_request u (HEADERS GITHUB_TOKEN) ps)),
   sent w (mk_request u (HEADERS GITHUB_TOKEN) ps)).
Proof. reflexivity. Qed.

(** One turn of the loop of [fetch_issues] on a successful page. *)
Lemma fetch_issues_loop_page (fuel : nat) (repo : string) (max_issues : Z)
    (issues : list json) (page : Z) (w : world) (batch : list dict) :
  answer w (issues_request repo page) = ok_page batch ->
  fetch_issues_loop (S fuel) repo max_issues issues page w =
  if Z.of_nat (List.length issues) <? max_issues then
    match batch with
    | [] => (Returned issues, sent w (issues_request repo page))
    | _ =>
        let issues' := (issues ++ map JObj (issues_only batch))%list in
        if Z.of_nat (List.length issues') >=? max_issues
        then (Returned issues', sent w (issues_request repo page))
        else fetch_issues_loop fuel repo max_issues issues' (page + 1)
               (sent w (issues_request repo page))
    end
  else (Returned issues, w).
Proof.
  intros Hpage. cbn [ApiFetch.fetch_issues_loop].
  destruct (Z.of_nat (List.length issues) <? max_issues); [|reflexivity].
  unfold bind at 1. rewrite requests_get_sent.
  fold (issues_request repo page). rewrite Hpage.
  cbn [ok_page status_code content response_json bind lift ret Z.eqb Pos.eqb].
  rewrite is_empty_batch_objects.
  destruct batch as [|item rest]; [reflexivity|].
  cbn [py_iter obind]. rewrite without_pull_requests_objects.
  cbn [bind lift ret]. destruct (_ >=? _); reflexivity.
Qed.

Lemma serves_head (rq : Z -> request) (first : Z) (pages : list (list dict))
    (w : world) :
  serves server rq first pages ->
  answer w (rq first) = ok_page (nth 0 pages []).
Proof.
  intros H. unfold ApiFetch.answer.
  replace first with (first + Z.of_nat 0) at 1 by (cbn; lia).
  apply H. lia.
Qed.

Lemma serves_tail (rq : Z -> request) (first : Z) (batch : list dict)
    (pages : list (list dict)) :
  serves server rq first (batch :: pages) ->
  serves server rq (first + 1) pages.
Proof.
  intros H n k Hk.
  replace (first + 1 + Z.of_nat k) with (first + Z.of_nat (S k)) by lia.
  apply (H n (S k)). cbn [List.length]. lia.
Qed.

(** The loop of [fetch_issues] on a finite source: it returns, and what it
    returns is a prefix of everything the pages hold, the whole of it unless
    the cap was reached. *)
Lemma fetch_issues_loop_serves (repo : string) (max_issues : Z)
    (pages : list (list dict)) :
  forall (fuel : nat) (issues : list json) (page : Z) (w : world),
  (List.length pages < fuel)%nat ->
  serves server (issues_request repo) page pages ->
  exists acc tail w',
    fetch_issues_loop fuel repo max_issues issues page w = (Returned acc, w') /\
    (issues ++ map JObj (List.concat (map issues_only (until_empty pages))))%list =
      (acc ++ tail)%list /\
    (tail = [] \/ max_issues <= Z.of_nat (List.length acc)) /\
    files w' = files w.
Proof.
  induction pages as [|batch rest IH]; intros fuel issues page w Hfuel Hsrv;
    (destruct fuel as [|fuel]; [cbn [List.length] in Hfuel; lia|]);
    rewrite (fetch_issues_loop_page _ _ _ _ _ _ _ (serves_head _ _ _ w Hsrv));
    cbn [nth until_empty map List.concat];
    destruct (Z.ltb_spec (Z.of_nat (List.length issues)) max_issues) as [Hlt|Hge].
  - exists issues, [], (sent w (issues_request repo page)).
    rewrite app_nil_r. auto.
  - exists issues, [], w. rewrite app_nil_r. auto.
  - destruct batch as [|item batch'].
    + exists issues, [], (sent w (issues_request repo page)).
      cbn [map List.concat]. rewrite app_nil_r. auto.
    + set (b := item :: batch') in *.
      assert (Hu : until_empty (b :: rest) = b :: until_empty rest) by reflexivity.
      cbv zeta.
      destruct (Z.geb_spec
        (Z.of_nat (List.length (issues ++ map JObj (issues_only b))%list)) max_issues)
        as [Hcap|Hmore].
      * exists (issues ++ map JObj (issues_only b))%list,
               (map JObj (List.concat (map issues_only (until_empty rest)))),
               (sent w (issues_request repo page)).
        repeat split; [|right; lia].
        cbn [map List.concat]. rewrite map_app, app_assoc. reflexivity.
      * destruct (IH fuel (issues ++ map JObj (issues_only b))%list (page + 1)
                    (sent w (issues_request repo page)))
          as (acc & tail & w' & Hrun & Hall & Htail & Hfiles).
        { cbn [List.length] in Hfuel. lia. }
        { exact (serves_tail _ _ _ _ Hsrv). }
        exists acc, tail, w'. repeat split; auto.
        cbn [map List.concat]. rewrite map_app, app_assoc. exact Hall.
  - exists issues,
      (map JObj (List.concat (map issues_only (until_empty (batch :: rest))))), w.
    repeat split; auto.
Qed.

(** Past the cap the loops are not entered: nothing is sent. *)
Lemma fetch_issues_loop_full (fuel : nat) (repo : string) (max_issues : Z)
    (issues : list json) (page : Z) (w : world) :
  max_issues <= Z.of_nat (List.length issues) ->
  fetch_issues_loop fuel repo max_issues issues page w = (Returned issues, w).
Proof.
  intros H. destruct fuel; cbn [ApiFetch.fetch_issues_loop];
    destruct (Z.ltb_spec (Z.of_nat (List.length issues)) max_issues);
    try lia; reflexivity.
Qed.

(** Whatever the server sends, the loop of [fetch_issues] keeps unmarked
    items only. *)
Lemma fetch_issues_loop_unmarked (repo : string) (max_issues : Z) :
  forall (fuel : nat) (issues : list json) (page : Z) (w : world)
         (acc : list json) (w' : world),
  Forall unmarked issues ->
  fetch_issues_loop fuel repo max_issues issues page w = (Returned acc, w') ->
  Forall unmarked acc.
Proof.
  induction fuel as [|fuel IH]; intros issues page w acc w' Hinv Hrun;
    cbn [ApiFetch.fetch_issues_loop] in Hrun;
    destruct (Z.of_nat (List.length issues) <? max_issues);
    try (injection Hrun as <- <-; exact Hinv); try discriminate.
  unfold bind at 1 in Hrun. rewrite requests_get_sent in Hrun.
  destruct (status_code _ =? 200).
  - cbn [bind lift ret] in Hrun.
    destruct (response_json _) as [batch| |]; try discriminate.
    destruct (is_empty_batch batch) as [[|]| |]; try discriminate.
    + injection Hrun as <- <-. exact Hinv.
    + destruct (py_iter batch) as [items| |]; cbn [obind] in Hrun;
        try discriminate.
      destruct (without_pull_requests items) as [kept| |] eqn:Hkept;
        try discriminate.
      assert (Hinv' : Forall unmarked (issues ++ kept)%list).
      { apply Forall_app. split; [exact Hinv|].
        exact (without_pull_requests_unmarked _ _ Hkept). }
      cbn [bind lift ret] in Hrun.
      destruct (_ >=? _).
      * injection Hrun as <- <-. exact Hinv'.
      * exact (IH _ _ _ _ _ Hinv' Hrun).
  - cbn [bind lift ret] in Hrun.
    destruct (obind _ _); try discriminate.
    injection Hrun as <- <-. exact Hinv.
Qed.

Lemma fetch_issues_unmarked (fuel : nat) (repo : string) (max_issues : Z)
    (w : world) (issues : list json) (w' : world) :
  fetch_issues fuel repo max_issues w = (Returned issues, w') ->
  Forall unmarked issues.
Proof.
  unfold ApiFetch.fetch_issues, bind, ret. intros Hrun.
  destruct (fetch_issues_loop fuel repo max_issues [] 1 w) as [[acc| |] w1] eqn:Hloop;
    try discriminate.
  injection Hrun as <- <-.
  assert (Hacc : Forall unmarked acc)
    by exact (fetch_issues_loop_unmarked _ _ _ _ _ _ _ _ (Forall_nil _) Hloop).
  unfold slice_to. destruct (0 <=? max_issues); apply firstn_Forall; exact Hacc.
Qed.

Lemma slice_to_length {A} (l : list A) (n : Z) :
  0 <= n -> Z.of_nat (List.length (slice_to l n)) <= n.
Proof.
  intros H. rewrite slice_to_firstn by exact H.
  pose proof (firstn_le_length (Z.to_nat n) l). rewrite length_firstn. lia.
Qed.

(** [fetch_issues] on a finite source: it returns the unmarked items of the
    pages before the first empty one, in page order, cut at the cap. *)
Lemma fetch_issues_serves (fuel : nat) (repo : string) (max_issues : Z)
    (pages : list (list dict)) (w : world) :
  (List.length pages < fuel)%nat ->
  serves server (issues_request repo) 1 pages ->
  exists w',
    fetch_issues fuel repo max_issues w =
    (Returned (map JObj (firstn (Z.to_nat max_issues)
        (List.concat (map issues_only (until_empty pages))))), w') /\
    files w' = files w.
Proof.
  intros Hfuel Hsrv. unfold ApiFetch.fetch_issues, bind, ret.
  destruct (Z.le_gt_cases max_issues 0) as [Hnone|Hsome].
  - rewrite fetch_issues_loop_full by (cbn; lia).
    exists w. rewrite slice_to_nil.
    replace (Z.to_nat max_issues) with 0%nat by lia. auto.
  - destruct (fetch_issues_loop_serves repo max_issues pages fuel [] 1 w Hfuel Hsrv)
      as (acc & tail & w' & Hrun & Hall & Htail & Hfiles).
    rewrite Hrun. exists w'. split; [|exact Hfiles].
    rewrite slice_to_firstn by lia. rewrite <- firstn_map.
    do 2 f_equal.
    transitivity (firstn (Z.to_nat max_issues) (acc ++ tail)%list);
      [|f_equal; symmetry; exact Hall].
    destruct Htail as [->|Hcap].
    + rewrite app_nil_r. reflexivity.
    + rewrite firstn_app.
      replace (Z.to_nat max_issues - List.length acc)%nat with 0%nat by lia.
      rewrite firstn_O, app_nil_r. reflexivity.
Qed.

(** One turn of the loop of [fetch_commits] on a successful page. *)
Lemma fetch_commits_loop_page (fuel : nat) (repo : string) (max_commits : Z)
    (commits : list json) (page : Z) (w : world) (batch : list dict) :
  answer w (commits_request repo page) = ok_page batch ->
  fetch_commits_loop (S fuel) repo max_commits commits page w =
  if Z.of_nat (List.length commits) <? max_commits then
    match batch with
    | [] => (Returned commits, sent w (commits_request repo page))
    | _ =>
        let commits' := (commits ++ map JObj batch)%list in
        if Z.of_nat (List.length batch) <? per_page
        then (Returned commits', sent w (commits_request repo page))
        else fetch_commits_loop fuel repo max_commits commits' (page + 1)
               (sent w (commits_request repo page))
    end
  else (Returned commits, w).
Proof.
  intros Hpage. cbn [ApiFetch.fetch_commits_loop].
  destruct (Z.of_nat (List.length commits) <? max_commits); [|reflexivity].
  unfold bind at 1. rewrite requests_get_sent.
  fold (commits_request repo page). rewrite Hpage.
  cbn [ok_page status_code content response_json bind lift ret Z.eqb Pos.eqb].
  rewrite is_empty_batch_objects.
  destruct batch as [|item rest]; [reflexivity|].
  cbn [py_iter py_len bind lift ret]. rewrite length_map.
  destruct (_ <? per_page); reflexivity.
Qed.

Lemma fetch_commits_loop_full (fuel : nat) (repo : string) (max_commits : Z)
    (commits : list json) (page : Z) (w : world) :
  max_commits <= Z.of_nat (List.length commits) ->
  fetch_commits_loop fuel repo max_commits commits page w = (Returned commits, w).
Proof.
  intros H. destruct fuel; cbn [ApiFetch.fetch_commits_loop];
    destruct (Z.ltb_spec (Z.of_nat (List.length commits)) max_commits);
    try lia; reflexivity.
Qed.

(** The loop of [fetch_commits] on a finite source. *)
Lemma fetch_commits_loop_serves (repo : string) (max_commits : Z)
    (pages : list (list dict)) :
  forall (fuel : nat) (commits : list json) (page : Z) (w : world),
  (List.length pages < fuel)%nat ->
  serves server (commits_request repo) page pages ->
  exists acc tail w',
    fetch_commits_loop fuel repo max_commits commits page w = (Returned acc, w') /\
    (commits ++ map JObj (List.concat (until_short pages)))%list =
      (acc ++ tail)%list /\
    (tail = [] \/ max_commits <= Z.of_nat (List.length acc)) /\
    files w' = files w.
Proof.
  induction pages as [|batch rest IH]; intros fuel commits page w Hfuel Hsrv;
    (destruct fuel as [|fuel]; [cbn [List.length] in Hfuel; lia|]);
    rewrite (fetch_commits_loop_page _ _ _ _ _ _ _ (serves_head _ _ _ w Hsrv));
    cbn [nth until_short map List.concat];
    destruct (Z.ltb_spec (Z.of_nat (List.length commits)) max_commits) as [Hlt|Hge].
  - exists commits, [], (sent w (commits_request repo page)).
    rewrite app_nil_r. auto.
  - exists commits, [], w. rewrite app_nil_r. auto.
  - destruct batch as [|item batch'].
    + exists commits, [], (sent w (commits_request repo page)).
      cbn [map List.concat]. rewrite app_nil_r. auto.
    + set (b := item :: batch') in *. cbv zeta.
      destruct (Z.of_nat (List.length b) <? per_page).
      * exists (commits ++ map JObj b)%list, [],
               (sent w (commits_request repo page)).
        cbn [List.concat]. rewrite !app_nil_r. auto.
      * destruct (IH fuel (commits ++ map JObj b)%list (page + 1)
                    (sent w (commits_request repo page)))
          as (acc & tail & w' & Hrun & Hall & Htail & Hfiles).
        { cbn [List.length] in Hfuel. lia. }
        { exact (serves_tail _ _ _ _ Hsrv). }
        exists acc, tail, w'. repeat split; auto.
        cbn [List.concat]. rewrite map_app, app_assoc. exact Hall.
  - exists commits, (map JObj (List.concat (until_short (batch :: rest)))), w.
    repeat split; auto.
Qed.

(** [fetch_commits] on a finite source: it returns the pages up to the first
    empty one, or through the first short one, in page order, cut at the
    cap. *)
Lemma fetch_commits_serves (fuel : nat) (repo : string) (max_commits : Z)
    (pages : list (list dict)) (w : world) :
  (List.length pages < fuel)%nat ->
  serves server (commits_request repo) 1 pages ->
  exists w',
    fetch_commits fuel repo max_commits w =
    (Returned (map JObj (firstn (Z.to_nat max_commits)
        (List.concat (until_short pages)))), w') /\
    files w' = files w.
Proof.
  intros Hfuel Hsrv. unfold ApiFetch.fetch_commits, bind, ret.
  destruct (Z.le_gt_cases max_commits 0) as [Hnone|Hsome].
  - rewrite fetch_commits_loop_full by (cbn; lia).
    exists w. rewrite slice_to_nil.
    replace (Z.to_nat max_commits) with 0%nat by lia. auto.
  - destruct (fetch_commits_loop_serves repo max_commits pages fuel [] 1 w Hfuel Hsrv)
      as (acc & tail & w' & Hrun & Hall & Htail & Hfiles).
    rewrite Hrun. exists w'. split; [|exact Hfiles].
    rewrite slice_to_firstn by lia. rewrite <- firstn_map.
    do 2 f_equal.
    transitivity (firstn (Z.to_nat max_commits) (acc ++ tail)%list);
      [|f_equal; symmetry; exact Hall].
    destruct Htail as [->|Hcap].
    + rewrite app_nil_r. reflexivity.
    + rewrite firstn_app.
      replace (Z.to_nat max_commits - List.length acc)%nat with 0%nat by lia.
      rewrite firstn_O, app_nil_r. reflexivity.
Qed.

(** One turn of either loop on a failed request whose body is a JSON
    object: the message is logged and the loop is left. *)
Lemma fetch_issues_loop_failure (fuel : nat) (repo : string) (max_issues : Z)
    (issues : list json) (page : Z) (w : world) (failure : response)
    (fields : dict) :
  answer w (issues_request repo page) = failure ->
  status_code failure <> 200 ->
  content failure = Some (JObj fields) ->
  fetch_issues_loop (S fuel) repo max_issues issues page w =
  if Z.of_nat (List.length issues) <? max_issues
  then (Returned issues, sent w (issues_request repo page))
  else (Returned issues, w).
Proof.
  intros Hpage Hstatus Hbody. cbn [ApiFetch.fetch_issues_loop].
  destruct (Z.of_nat (List.length issues) <? max_issues); [|reflexivity].
  unfold bind at 1. rewrite requests_get_sent.
  fold (issues_request repo page). rewrite Hpage.
  destruct (Z.eqb_spec (status_code failure) 200) as [E|_]; [contradiction|].
  unfold response_json. rewrite Hbody. cbn [obind py_get bind lift ret].
  destruct (dict_get fields "message"); reflexivity.
Qed.

Lemma fetch_commits_loop_failure (fuel : nat) (repo : string) (max_commits : Z)
    (commits : list json) (page : Z) (w : world) (failure : response)
    (fields : dict) :
  answer w (commits_request repo page) = failure ->
  status_code failure <> 200 ->
  content failure = Some (JObj fields) ->
  fetch_commits_loop (S fuel) repo max_commits commits page w =
  if Z.of_nat (List.length commits) <? max_commits
  then (Returned commits, sent w (commits_request repo page))
  else (Returned commits, w).
Proof.
  intros Hpage Hstatus Hbody. cbn [ApiFetch.fetch_commits_loop].
  destruct (Z.of_nat (List.length commits) <? max_commits); [|reflexivity].
  unfold bind at 1. rewrite requests_get_sent.
  fold (commits_request repo page). rewrite Hpage.
  destruct (Z.eqb_spec (status_code failure) 200) as [E|_]; [contradiction|].
  unfold response_json. rewrite Hbody. cbn [obind py_get bind lift ret].
  destruct (dict_get fields "message"); reflexivity.
Qed.

Lemma issues_only_pages (pages : list (list dict)) :
  Forall (fun item => is_issue item = true) (List.concat (map issues_only pages)).
Proof.
  induction pages as [|batch rest IH]; cbn [map List.concat]; [constructor|].
  apply Forall_app. split; [|exact IH].
  apply Forall_forall. intros item Hin. apply filter_In in Hin. tauto.
Qed.

Lemma issues_as_objects (items : list dict) :
  Forall (fun item => is_issue item = true) items ->
  Forall (fun issue : json =>
            exists fields, issue = JObj fields /\
                           dict_get fields "pull_request" = None)
         (map JObj items).
Proof.
  intros H. apply Forall_map. revert H. apply Forall_impl. intros item Hissue.
  exists item. split; [reflexivity|].
  unfold is_issue, dict_mem in Hissue.
  destruct (dict_get item "pull_request"); [discriminate | reflexivity].
Qed.

(** C2.  Under any cap [N >= 0], on every finite sequence of pages
    [fetch_issues] returns, and returns at most [N] items, each an object
    without a ['pull_request'] key; and whatever the server sends, a list it
    returns has at most [N] items, none of them marked. *)
Theorem fetch_issues_capped (N : Z) (repo : string) :
  0 <= N ->
  (forall (pages : list (list dict)) (fuel : nat) (w : world),
     (List.length pages < fuel)%nat ->
     serves server (issues_request repo) 1 pages ->
     exists issues w',
       fetch_issues fuel repo N w = (Returned issues, w') /\
       Z.of_nat (List.length issues) <= N /\
       Forall (fun issue : json =>
                 exists fields, issue = JObj fields /\
                                dict_get fields "pull_request" = None) issues) /\
  (forall (fuel : nat) (w : world) (issues : list json) (w' : world),
     fetch_issues fuel repo N w = (Returned issues, w') ->
     Z.of_nat (List.length issues) <= N /\ Forall unmarked issues).
Proof.
  intros HN. split.
  - intros pages fuel w Hfuel Hsrv.
    destruct (fetch_issues_serves fuel repo N pages w Hfuel Hsrv) as (w' & Hrun & _).
    eexists _, w'. split; [exact Hrun|]. split.
    + rewrite length_map, length_firstn. lia.
    + apply issues_as_objects, firstn_Forall, issues_only_pages.
  - intros fuel w issues w' Hrun. split.
    + unfold ApiFetch.fetch_issues, bind, ret in Hrun.
      destruct (fetch_issues_loop fuel repo N [] 1 w) as [[acc| |] w1];
        try discriminate.
      injection Hrun as <- <-. apply slice_to_length, HN.
    + exact (fetch_issues_unmarked _ _ _ _ _ _ Hrun).
Qed.

(** C9.  With a cap of zero or less, [fetch_issues] and [fetch_commits]
    return the empty list and leave the world as it was: no request is
    sent, whatever the fuel. *)
Theorem fetch_nothing_under_empty_cap (fuel : nat) (repo : string)
    (max_issues max_commits : Z) (w : world) :
  max_issues <= 0 ->
  max_commits <= 0 ->
  fetch_issues fuel repo max_issues w = (Returned [], w) /\
  fetch_commits fuel repo max_commits w = (Returned [], w).
Proof.
  intros Hi Hc. unfold ApiFetch.fetch_issues, ApiFetch.fetch_commits, bind, ret.
  rewrite fetch_issues_loop_full by (cbn; lia).
  rewrite fetch_commits_loop_full by (cbn; lia).
  rewrite !slice_to_nil. split; reflexivity.
Qed.

(** C4.  One turn of each loop on a successful page.  [fetch_commits] is
    left on an empty page and on a page shorter than [per_page], and goes on
    otherwise (to be stopped by the cap at the head of the loop);
    [fetch_issues] is left on an empty page and when the kept items reach the
    cap, and goes on to the next page otherwise, however short the page. *)
Theorem pagination_stops (fuel : nat) (repo : string) (cap : Z)
    (acc : list json) (page : Z) (w : world) (batch : list dict) :
  answer w (commits_request repo page) = ok_page batch ->
  answer w (issues_request repo page) = ok_page batch ->
  fetch_commits_loop (S fuel) repo cap acc page w =
    (if Z.of_nat (List.length acc) <? cap then
       match batch with
       | [] => (Returned acc, sent w (commits_request repo page))
       | _ =>
           if Z.of_nat (List.length batch) <? per_page
           then (Returned (acc ++ map JObj batch)%list,
                 sent w (commits_request repo page))
           else fetch_commits_loop fuel repo cap (acc ++ map JObj batch)%list
                  (page + 1) (sent w (commits_request repo page))
       end
     else (Returned acc, w)) /\
  fetch_issues_loop (S fuel) repo cap acc page w =
    (if Z.of_nat (List.length acc) <? cap then
       match batch with
       | [] => (Returned acc, sent w (issues_request repo page))
       | _ =>
           if Z.of_nat (List.length (acc ++ map JObj (issues_only batch))%list)
              >=? cap
           then (Returned (acc ++ map JObj (issues_only batch))%list,
                 sent w (issues_request repo page))
           else fetch_issues_loop fuel repo cap
                  (acc ++ map JObj (issues_only batch))%list
                  (page + 1) (sent w (issues_request repo page))
       end
     else (Returned acc, w)).
Proof.
  intros Hcommits Hissues. split.
  - exact (fetch_commits_loop_page _ _ _ _ _ _ _ Hcommits).
  - exact (fetch_issues_loop_page _ _ _ _ _ _ _ Hissues).
Qed.

(** When page 1 succeeds and page 2 would fail with a body that is a JSON
    object, [fetch_issues] returns the unmarked items of page 1 and
    [fetch_commits] the items of page 1, each cut at the cap, whether page 2
    is asked for or not. *)
Lemma partial_result_after_failed_page (fuel : nat) (repo : string) (cap : Z)
    (issues_page commits_page : list dict) (failure : response)
    (fields : dict) (w : world) :
  (2 <= fuel)%nat ->
  (forall n, server n (issues_request repo 1) = ok_page issues_page) ->
  (forall n, server n (issues_request repo 2) = failure) ->
  (forall n, server n (commits_request repo 1) = ok_page commits_page) ->
  (forall n, server n (commits_request repo 2) = failure) ->
  status_code failure <> 200 ->
  content failure = Some (JObj fields) ->
  (exists w',
     fetch_issues fuel repo cap w =
     (Returned (map JObj (firstn (Z.to_nat cap) (issues_only issues_page))), w')) /\
  (exists w',
     fetch_commits fuel repo cap w =
     (Returned (map JObj (firstn (Z.to_nat cap) commits_page)), w')).
Proof.
  intros Hfuel Hi1 Hi2 Hc1 Hc2 Hstatus Hbody.
  destruct fuel as [|[|fuel]]; try lia.
  unfold ApiFetch.fetch_issues, ApiFetch.fetch_commits, bind, ret. split.
  - rewrite (fetch_issues_loop_page _ _ _ _ _ _ issues_page (Hi1 _)).
    cbn [List.length app]. change (Z.of_nat 0) with 0.
    destruct (Z.ltb_spec 0 cap) as [Hcap|Hcap].
    + destruct issues_page as [|item rest].
      * eexists. rewrite slice_to_nil. cbn [issues_only filter].
        rewrite firstn_nil. reflexivity.
      * cbv zeta. destruct (_ >=? cap).
        -- eexists. rewrite slice_to_firstn, firstn_map by lia. reflexivity.
        -- rewrite (fetch_issues_loop_failure _ _ _ _ _ _ failure fields (Hi2 _)
                      Hstatus Hbody).
           destruct (_ <? cap); eexists;
             rewrite slice_to_firstn, firstn_map by lia; reflexivity.
    + eexists. rewrite slice_to_nil.
      replace (Z.to_nat cap) with 0%nat by lia. reflexivity.
  - rewrite (fetch_commits_loop_page _ _ _ _ _ _ commits_page (Hc1 _)).
    cbn [List.length app]. change (Z.of_nat 0) with 0.
    destruct (Z.ltb_spec 0 cap) as [Hcap|Hcap].
    + destruct commits_page as [|item rest].
      * eexists. rewrite slice_to_nil, firstn_nil. reflexivity.
      * cbv zeta. destruct (_ <? per_page).
        -- eexists. rewrite slice_to_firstn, firstn_map by lia. reflexivity.
        -- rewrite (fetch_commits_loop_failure _ _ _ _ _ _ failure fields (Hc2 _)
                      Hstatus Hbody).
           destruct (_ <? cap); eexists;
             rewrite slice_to_firstn, firstn_map by lia; reflexivity.
    + eexists. rewrite slice_to_nil.
      replace (Z.to_nat cap) with 0%nat by lia. reflexivity.
Qed.

(** The same when page 2 is really asked for, that is when page 1 left the
    cap unfilled (and, for commits, was a full page): the items of page 1
    come back, all of them. *)
Lemma page_one_returned_when_failure_is_logged (fuel : nat) (repo : string)
    (cap : Z) (issues_page commits_page : list dict) (failure : response)
    (fields : dict) (w : world) :
  (2 <= fuel)%nat ->
  (forall n, server n (issues_request repo 1) = ok_page issues_page) ->
  (forall n, server n (issues_request repo 2) = failure) ->
  (forall n, server n (commits_request repo 1) = ok_page commits_page) ->
  (forall n, server n (commits_request repo 2) = failure) ->
  status_code failure <> 200 ->
  content failure = Some (JObj fields) ->
  Z.of_nat (List.length (issues_only issues_page)) < cap ->
  Z.of_nat (List.length commits_page) < cap ->
  fst (fetch_issues fuel repo cap w) = Returned (map JObj (issues_only issues_page)) /\
  fst (fetch_commits fuel repo cap w) = Returned (map JObj commits_page).
Proof.
  intros Hfuel Hi1 Hi2 Hc1 Hc2 Hstatus Hbody Hcapi Hcapc.
  destruct (partial_result_after_failed_page fuel repo cap issues_page
              commits_page failure fields w Hfuel Hi1 Hi2 Hc1 Hc2 Hstatus Hbody)
    as [(wi & Hi) (wc & Hc)].
  rewrite Hi, Hc. cbn [fst].
  rewrite !firstn_all2 by lia. split; reflexivity.
Qed.

Lemma until_empty_nonempty (pages : list (list dict)) :
  Forall (fun batch => batch <> []) pages -> until_empty pages = pages.
Proof.
  induction 1 as [|batch rest Hbatch _ IH]; [reflexivity|].
  destruct batch; [contradiction|]. cbn [until_empty]. rewrite IH. reflexivity.
Qed.

(** C6, as amended.  On a source of non-empty pages of strictly decreasing
    size followed by an empty page, both fetches return: [fetch_issues] the
    unmarked items of all the pages, in page order, cut at the cap;
    [fetch_commits] the items of the pages through the first one shorter
    than [per_page], in page order, cut at the cap. *)
Theorem pagination_on_shrinking_pages (fuel : nat) (repo : string) (cap : Z)
    (pages : list (list dict)) (w : world) :
  Forall (fun batch => batch <> []) pages ->
  strictly_decreasing pages ->
  (List.length pages < fuel)%nat ->
  serves server (issues_request repo) 1 pages ->
  serves server (commits_request repo) 1 pages ->
  (exists w',
     fetch_issues fuel repo cap w =
     (Returned (map JObj (firstn (Z.to_nat cap)
        (List.concat (map issues_only pages)))), w')) /\
  (exists w',
     fetch_commits fuel repo cap w =
     (Returned (map JObj (firstn (Z.to_nat cap)
        (List.concat (until_short pages)))), w')).
Proof.
  intros Hfull _ Hfuel Hissues Hcommits. split.
  - destruct (fetch_issues_serves fuel repo cap pages w Hfuel Hissues)
      as (w' & Hrun & _).
    rewrite (until_empty_nonempty pages Hfull) in Hrun. eauto.
  - destruct (fetch_commits_serves fuel repo cap pages w Hfuel Hcommits)
      as (w' & Hrun & _).
    eauto.
Qed.

(** *** Which calls write files *)

Lemma keeps_files_ret {A} (a : A) : keeps_files (ret a).
Proof. intros w. reflexivity. Qed.

Lemma keeps_files_lift {A} (o : outcome A) : keeps_files (lift o).
Proof. intros w. reflexivity. Qed.

Lemma keeps_files_bind {A B} (c : M A) (k : A -> M B) :
  keeps_files c -> (forall a, keeps_files (k a)) -> keeps_files (bind c k).
Proof.
  intros Hc Hk w. unfold bind. specialize (Hc w).
  destruct (c w) as [[a| |] w1]; cbn [snd] in *; try exact Hc.
  rewrite (Hk a w1). exact Hc.
Qed.

Lemma keeps_files_requests_get (u : string) (ps : dict) :
  keeps_files (requests_get u ps).
Proof. intros w. reflexivity. Qed.

Lemma keeps_files_datetime_now : keeps_files datetime_now.
Proof. intros w. reflexivity. Qed.

Ltac frame_step :=
  first
    [ apply keeps_files_ret
    | apply keeps_files_lift
    | apply keeps_files_requests_get
    | apply keeps_files_datetime_now
    | apply keeps_files_bind; [|intro]
    | match goal with
      | |- keeps_files (if ?b then _ else _) => destruct b
      end ].

Lemma keeps_files_check_rate_limit : keeps_files check_rate_limit.
Proof. unfold ApiFetch.check_rate_limit. repeat frame_step. Qed.

Lemma keeps_files_fetch_repo_info (repo : string) :
  keeps_files (fetch_repo_info repo).
Proof. unfold ApiFetch.fetch_repo_info. repeat frame_step. Qed.

Lemma keeps_files_fetch_issues_loop (repo : string) (max_issues : Z) :
  forall (fuel : nat) (issues : list json) (page : Z),
  keeps_files (fetch_issues_loop fuel repo max_issues issues page).
Proof.
  induction fuel as [|fuel IH]; intros issues page;
    cbn [ApiFetch.fetch_issues_loop]; repeat frame_step. apply IH.
Qed.

Lemma keeps_files_fetch_commits_loop (repo : string) (max_commits : Z) :
  forall (fuel : nat) (commits : list json) (page : Z),
  keeps_files (fetch_commits_loop fuel repo max_commits commits page).
Proof.
  induction fuel as [|fuel IH]; intros commits page;
    cbn [ApiFetch.fetch_commits_loop]; repeat frame_step. apply IH.
Qed.

Lemma keeps_files_fetch_issues (fuel : nat) (repo : string) (max_issues : Z) :
  keeps_files (fetch_issues fuel repo max_issues).
Proof.
  unfold ApiFetch.fetch_issues. repeat frame_step.
  apply keeps_files_fetch_issues_loop.
Qed.

Lemma keeps_files_fetch_commits (fuel : nat) (repo : string) (max_commits : Z) :
  keeps_files (fetch_commits fuel repo max_commits).
Proof.
  unfold ApiFetch.fetch_commits. repeat frame_step.
  apply keeps_files_fetch_commits_loop.
Qed.

Lemma bind_returned {A B} (c : M A) (k : A -> M B) (w : world) (b : B)
    (w' : world) :
  bind c k w = (Returned b, w') ->
  exists a w1, c w = (Returned a, w1) /\ k a w1 = (Returned b, w').
Proof.
  unfold bind. destruct (c w) as [[a| |] w1]; try discriminate. eauto.
Qed.

(** *** The loop of [main] *)

Lemma visit_returned (fuel : nat) (timestamp repo : string) (all_data : dict)
    (w : world) (all_data' : dict) (low : bool) (w' : world) :
  visit fuel timestamp repo all_data w = (Returned (all_data', low), w') ->
  exists data w0 remaining,
    all_data' = dict_set all_data repo data /\
    snapshot data /\
    files w' = (files w ++ [repo_file timestamp (repo, data)])%list /\
    check_rate_limit w0 = (Returned remaining, w') /\
    py_lt remaining 50 = Returned low.
Proof.
  unfold ApiFetch.visit. intros H.
  apply bind_returned in H. destruct H as (t & w1 & Ht & H).
  apply bind_returned in H. destruct H as (info & w2 & Hinfo & H).
  apply bind_returned in H. destruct H as (issues & w3 & Hissues & H).
  apply bind_returned in H. destruct H as (commits & w4 & Hcommits & H).
  apply bind_returned in H. destruct H as ([] & w5 & Hsave & H).
  apply bind_returned in H. destruct H as (remaining & w6 & Hcheck & H).
  apply bind_returned in H. destruct H as (low' & w7 & Hlow & H).
  unfold lift in Hlow. unfold ret in H.
  injection H as <- <- <-. injection Hlow as Hlow <-.
  eexists _, w5, remaining. split; [reflexivity|].
  split; [eexists _, _; split; reflexivity|].
  split; [|split; assumption].
  pose proof (keeps_files_datetime_now w) as F1. rewrite Ht in F1.
  pose proof (keeps_files_fetch_repo_info repo w1) as F2. rewrite Hinfo in F2.
  pose proof (keeps_files_fetch_issues fuel repo 100 w2) as F3.
  rewrite Hissues in F3.
  pose proof (keeps_files_fetch_commits fuel repo 100 w3) as F4.
  rewrite Hcommits in F4.
  pose proof (keeps_files_check_rate_limit w5) as F6. rewrite Hcheck in F6.
  cbn [snd] in *. unfold ApiFetch.save_data in Hsave.
  injection Hsave as <-. cbn [files] in F6.
  rewrite F6, F4, F3, F2, F1. reflexivity.
Qed.

Lemma collect_returned (fuel : nat) (timestamp : string) :
  forall (repos : list string) (all_data : dict) (w : world)
         (all_data' : dict) (w' : world),
  collect fuel timestamp repos all_data w = (Returned all_data', w') ->
  exists (entries : dict) (n : nat),
    dict_keys entries = firstn n repos /\
    all_data' = record_all entries all_data /\
    files w' = (files w ++ map (repo_file timestamp) entries)%list /\
    Forall (fun entry => snapshot (snd entry)) entries /\
    (n = List.length repos \/
     exists w0 remaining,
       check_rate_limit w0 = (Returned remaining, w') /\
       py_lt remaining 50 = Returned true).
Proof.
  induction repos as [|repo rest IH]; intros all_data w all_data' w' H;
    cbn [ApiFetch.collect] in H.
  - injection H as <- <-. exists [], 0%nat. cbn [map]. rewrite app_nil_r.
    repeat split; auto.
  - apply bind_returned in H. destruct H as ([all_data1 low] & w1 & Hvisit & H).
    apply visit_returned in Hvisit.
    destruct Hvisit as (data & w0 & remaining & -> & Hdata & Hfiles & Hcheck & Hlow).
    cbn [fst snd] in H. destruct low.
    + injection H as <- <-. exists [(repo, data)], 1%nat.
      repeat split; auto. right. eauto.
    + apply IH in H.
      destruct H as (entries & n & Hkeys & -> & Hfiles' & Hall & Hstop).
      exists ((repo, data) :: entries), (S n).
      cbn [dict_keys map fst firstn]. split; [f_equal; exact Hkeys|].
      split; [reflexivity|].
      split; [rewrite Hfiles', Hfiles, <- app_assoc; reflexivity|].
      split; [constructor; assumption|].
      destruct Hstop as [->|Hstop]; [left; reflexivity | right; exact Hstop].
Qed.


(** C7.  [check_rate_limit] sends one request.  On any answer other than
    200 it returns 0 and does not raise, whatever the body; on a 200 that
    reports a remaining count, a non-negative integer, it returns that
    count. *)
Theorem check_rate_limit_fails_closed (w : world) :
  (status_code (answer w rate_limit_request) <> 200 ->
   check_rate_limit w = (Returned (JInt 0), sent w rate_limit_request)) /\
  (forall remaining : Z,
     reports localtime_ok (answer w rate_limit_request) remaining ->
     0 <= remaining ->
     exists r : Z,
       check_rate_limit w = (Returned (JInt r), sent w rate_limit_request) /\
       r = remaining /\ 0 <= r).
Proof.
  split.
  - intros Hstatus. unfold ApiFetch.check_rate_limit. unfold bind at 1.
    rewrite requests_get_sent. fold rate_limit_request.
    destruct (Z.eqb_spec (status_code (answer w rate_limit_request)) 200);
      [contradiction | reflexivity].
  - intros remaining (Hstatus & data & resources & core & limit & reset & Hbody
                       & Hresources & Hcore & Hremaining & Hlimit & Hreset & Hdate)
           Hcount.
    exists remaining. split; [|split; [reflexivity | exact Hcount]].
    unfold ApiFetch.check_rate_limit. unfold bind at 1.
    rewrite requests_get_sent. fold rate_limit_request.
    rewrite Hstatus. cbn [Z.eqb Pos.eqb]. unfold response_json. rewrite Hbody.
    cbn [bind lift]. rewrite Hresources. rewrite Hcore. rewrite Hremaining.
    rewrite Hlimit. rewrite Hreset. rewrite Hdate. reflexivity.
Qed.

End Facts.

(** *** The theorems at work on simulated servers *)

Lemma replay_serves_issues (token repo : string) (pages : list (list dict)) :
  serves (replay pages) (issues_request token repo) 1 pages.
Proof.
  intros n k _. unfold replay.
  change (page_number (issues_request token repo (1 + Z.of_nat k)))
    with (1 + Z.of_nat k).
  replace (Z.to_nat (1 + Z.of_nat k - 1)) with k by lia. reflexivity.
Qed.

Lemma replay_serves_commits (token repo : string) (pages : list (list dict)) :
  serves (replay pages) (commits_request token repo) 1 pages.
Proof.
  intros n k _. unfold replay.
  change (page_number (commits_request token repo (1 + Z.of_nat k)))
    with (1 + Z.of_nat k).
  replace (Z.to_nat (1 + Z.of_nat k - 1)) with k by lia. reflexivity.
Qed.

(** Why the loops carry fuel: on a source whose pages never run out and hold
    pull requests only, the loop of [fetch_issues] never leaves. *)
Lemma fetch_issues_endless_pull_requests (token repo : string) :
  forall (fuel : nat) (page : Z) (w : world),
  fst (fetch_issues_loop token (fun _ _ => ok_page [pull_8]) fuel repo 100 []
         page w) = OutOfFuel.
Proof.
  induction fuel as [|fuel IH]; intros page w; [reflexivity|].
  rewrite (fetch_issues_loop_page token (fun _ _ => ok_page [pull_8]) fuel repo
             100 [] page w [pull_8] eq_refl).
  apply IH.
Qed.

Lemma fetch_issues_capped_witness :
  exists issues w',
    fetch_issues "token" (replay shrinking_pages) 3 "numpy/numpy" 1 initial_world
      = (Returned issues, w') /\
    Z.of_nat (List.length issues) <= 1 /\
    Forall (fun issue : json =>
              exists fields, issue = JObj fields /\
                             dict_get fields "pull_request" = None) issues.
Proof.
  apply (proj1 (fetch_issues_capped "token" (replay shrinking_pages) 1
                  "numpy/numpy" ltac:(lia)) shrinking_pages 3%nat initial_world).
  - cbn. lia.
  - apply replay_serves_issues.
Defined.

Lemma fetch_nothing_under_empty_cap_witness :
  fetch_issues "token" (replay shrinking_pages) 3 "numpy/numpy" 0 initial_world
    = (Returned [], initial_world) /\
  fetch_commits "token" (replay shrinking_pages) 3 "numpy/numpy" (-2) initial_world
    = (Returned [], initial_world).
Proof.
  apply (fetch_nothing_under_empty_cap "token" (replay shrinking_pages) 3
           "numpy/numpy" 0 (-2) initial_world); lia.
Defined.

Lemma pagination_stops_witness :
  fetch_commits_loop "token" (replay shrinking_pages) 2 "numpy/numpy" 100 [] 1
    initial_world
  = (Returned [JObj issue_7; JObj pull_8],
     sent initial_world (commits_request "token" "numpy/numpy" 1)) /\
  fetch_issues_loop "token" (replay shrinking_pages) 2 "numpy/numpy" 100 [] 1
    initial_world
  = fetch_issues_loop "token" (replay shrinking_pages) 1 "numpy/numpy" 100
      [JObj issue_7] 2
      (sent initial_world (issues_request "token" "numpy/numpy" 1)).
Proof.
  exact (pagination_stops "token" (replay shrinking_pages) 1 "numpy/numpy" 100
           [] 1 initial_world [issue_7; pull_8] eq_refl eq_refl).
Defined.

(** C3, on the code.  Page 1 succeeds, the cap is not filled, page 2 is asked
    for and fails.  When the body of the failure is not JSON, the line that
    logs its message raises: [fetch_issues] and [fetch_commits] end in
    [JSONDecodeError] after their second request, and the items of page 1 are
    not returned.  With a body that is a JSON object the same runs return
    the items of page 1. *)
Theorem failed_page_log_line_raises :
  (forall n, replay_then [[issue_7; pull_8]] bad_gateway n
               (issues_request "token" "numpy/numpy" 1)
             = ok_page [issue_7; pull_8]) /\
  (forall n, replay_then [[issue_7; pull_8]] bad_gateway n
               (issues_request "token" "numpy/numpy" 2)
             = bad_gateway) /\
  status_code bad_gateway <> 200 /\
  fetch_issues "token" (replay_then [[issue_7; pull_8]] bad_gateway) 5
    "numpy/numpy" 100 initial_world
  = (Raised JSONDecodeError,
     sent (sent initial_world (issues_request "token" "numpy/numpy" 1))
          (issues_request "token" "numpy/numpy" 2)) /\
  fetch_commits "token" (replay_then [repeat issue_7 100] bad_gateway) 5
    "numpy/numpy" 150 initial_world
  = (Raised JSONDecodeError,
     sent (sent initial_world (commits_request "token" "numpy/numpy" 1))
          (commits_request "token" "numpy/numpy" 2)) /\
  fst (fetch_issues "token" (replay_then [[issue_7; pull_8]] server_error) 5
         "numpy/numpy" 100 initial_world)
  = Returned (map JObj (issues_only [issue_7; pull_8])) /\
  fst (fetch_commits "token" (replay_then [repeat issue_7 100] server_error) 5
         "numpy/numpy" 150 initial_world)
  = Returned (map JObj (repeat issue_7 100)).
Proof.
  split; [intro; reflexivity|].
  split; [intro; reflexivity|].
  split; [cbn; discriminate|].
  repeat split; vm_compute; reflexivity.
Qed.

(** C6, as stated, fails on two shrinking pages: [fetch_commits] stops after
    the first, which is shorter than [per_page], and [fetch_issues] drops
    the pull request. *)
Lemma shrinking_pages_counterexample :
  Forall (fun batch : list dict => batch <> []) shrinking_pages /\
  strictly_decreasing shrinking_pages /\
  serves (replay shrinking_pages) (commits_request "token" "numpy/numpy") 1
    shrinking_pages /\
  fst (fetch_commits "token" (replay shrinking_pages) 5 "numpy/numpy" 100
         initial_world)
    = Returned [JObj issue_7; JObj pull_8] /\
  fst (fetch_commits "token" (replay shrinking_pages) 5 "numpy/numpy" 100
         initial_world)
    <> Returned (map JObj (firstn (Z.to_nat 100) (List.concat shrinking_pages))) /\
  fst (fetch_issues "token" (replay shrinking_pages) 5 "numpy/numpy" 100
         initial_world)
    <> Returned (map JObj (firstn (Z.to_nat 100) (List.concat shrinking_pages))).
Proof.
  split; [repeat constructor; discriminate|].
  split; [cbn; lia|].
  split; [apply replay_serves_commits|].
  split; [vm_compute; reflexivity|].
  split; vm_compute; discriminate.
Qed.

Lemma pagination_on_shrinking_pages_witness :
  (exists w',
     fetch_issues "token" (replay shrinking_pages) 3 "numpy/numpy" 100
       initial_world
     = (Returned [JObj issue_7; JObj issue_9], w')) /\
  (exists w',
     fetch_commits "token" (replay shrinking_pages) 3 "numpy/numpy" 100
       initial_world
     = (Returned [JObj issue_7; JObj pull_8], w')).
Proof.
  apply (pagination_on_shrinking_pages "token" (replay shrinking_pages) 3
           "numpy/numpy" 100 shrinking_pages initial_world).
  - repeat constructor; discriminate.
  - cbn. lia.
  - cbn. lia.
  - apply replay_serves_issues.
  - apply replay_serves_commits.
Defined.

Lemma check_rate_limit_fails_closed_witness :
  check_rate_limit "token" (fun _ _ => bad_gateway) (fun _ => true) initial_world
    = (Returned (JInt 0), sent initial_world (rate_limit_request "token")) /\
  exists r : Z,
    check_rate_limit "token" (github (fun _ => 4999) []) (fun _ => true)
      initial_world
    = (Returned (JInt r), sent initial_world (rate_limit_request "token")) /\
    r = 4999 /\ 0 <= r.
Proof.
  split.
  - apply (proj1 (check_rate_limit_fails_closed "token" (fun _ _ => bad_gateway)
                    (fun _ => true) initial_world)).
    cbn. discriminate.
  - apply (proj2 (check_rate_limit_fails_closed "token" (github (fun _ => 4999) [])
                    (fun _ => true) initial_world) 4999); [|lia].
    split; [reflexivity|].
    eexists _, _, _, _, _. repeat (split; [reflexivity|]). reflexivity.
Defined.


End CollectorFacts.

(** ** Facts about the Merger *)

Module MergerFacts.
Import Py WriteToAll.

(** The loop over the keys leaves its variable bound to the last key. *)
Lemma stamp_keys_binding (keys : list string) :
  forall (key : option string) (data : json) (key' : option string)
         (data' : json),
  stamp_keys keys key data = Returned (key', data') ->
  key' = match keys with [] => key | _ => Some (last keys "") end.
Proof.
  induction keys as [|k rest IH]; intros key data key' data' H;
    cbn [stamp_keys] in H.
  - injection H as <- _. reflexivity.
  - destruct (py_in k data) as [present| |]; cbn [obind] in H; try discriminate.
    assert (Hrest : exists d, stamp_keys rest (Some k) d = Returned (key', data')).
    { destruct present; [|eauto].
      destruct (stamp_repository data k) as [d| |]; cbn [obind] in H;
        try discriminate.
      eauto. }
    destruct Hrest as (d & Hd). apply IH in Hd. subst key'.
    destruct rest; reflexivity.
Qed.

Lemma load_loaded (content : option json) (combined_data : dict) (data : json) :
  loaded content = Some data ->
  load content combined_data =
  Returned (dict_set combined_data "mlflow/mlflow" data).
Proof.
  unfold load, loaded. destruct content as [raw|]; [|discriminate].
  cbn [obind].
  destruct (stamp_keys KEYS None raw) as [[key data']| |] eqn:H; try discriminate.
  intros [= ->]. apply stamp_keys_binding in H. subst key. reflexivity.
Qed.

Lemma load_skipped (content : option json) (combined_data : dict) :
  loaded content = None ->
  forall d, load content combined_data <> Returned d.
Proof.
  unfold load, loaded. destruct content as [raw|]; [|discriminate].
  cbn [obind].
  destruct (stamp_keys KEYS None raw) as [[key data']| |]; discriminate.
Qed.

Lemma combine_merged (json_files : list (string * option json)) :
  forall d : option json,
  combine json_files (merged d) = merged (last_loaded json_files d).
Proof.
  induction json_files as [|[name content] rest IH]; intros d; [reflexivity|].
  cbn [combine last_loaded].
  destruct (loaded content) as [data|] eqn:Hloaded.
  - rewrite (load_loaded _ _ _ Hloaded), <- IH. destruct d; reflexivity.
  - pose proof (load_skipped content (merged d) Hloaded) as Hskip.
    destruct (load content (merged d)) as [d'| |];
      [contradiction (Hskip d' eq_refl) | apply IH..].
Qed.

(** *** The stamping loop does what [stamped] says *)

Lemma stamped_nil (fields : dict) : stamped [] fields = Some fields.
Proof.
  induction fields as [|entry rest IH]; [reflexivity|].
  cbn [stamped]. unfold stamped_entry. cbn [existsb]. rewrite IH. reflexivity.
Qed.

Lemma stamped_keys (keys : list string) (fields fields' : dict) :
  stamped keys fields = Some fields' -> dict_keys fields' = dict_keys fields.
Proof.
  revert fields'. induction fields as [|[k v] rest IH]; intros fields' H;
    cbn [stamped] in H.
  - injection H as <-. reflexivity.
  - destruct (stamped_entry keys (k, v)) as [[k' v']|] eqn:He; [|discriminate].
    destruct (stamped keys rest) as [rest'|]; [|discriminate].
    injection H as <-. cbn [dict_keys map fst]. f_equal; [|apply IH; reflexivity].
    unfold stamped_entry in He. cbn [fst snd] in He.
    destruct (existsb _ keys); [destruct v; try discriminate|];
      injection He as <- _; reflexivity.
Qed.

(** One key on a mapping without it: nothing to stamp. *)
Lemma stamped_absent (k : string) (fields : dict) :
  dict_get fields k = None -> stamped [k] fields = Some fields.
Proof.
  induction fields as [|[k' v] rest IH]; intros H; [reflexivity|].
  cbn [dict_get] in H. cbn [stamped]. unfold stamped_entry.
  cbn [existsb fst snd]. rewrite orb_false_r.
  destruct (String.eqb k' k); [discriminate|]. rewrite (IH H). reflexivity.
Qed.

(** One key on a mapping that holds it once. *)
Lemma stamped_present (k : string) (fields : dict) (v : json) :
  NoDup (dict_keys fields) ->
  dict_get fields k = Some v ->
  stamped [k] fields =
  match v with
  | JObj nested =>
      Some (dict_set fields k (JObj (dict_set nested "repository" (JStr k))))
  | _ => None
  end.
Proof.
  induction fields as [|[k' v'] rest IH]; intros Hnodup H; [discriminate|].
  cbn [dict_get] in H. cbn [stamped dict_set]. unfold stamped_entry.
  cbn [existsb fst snd]. rewrite orb_false_r. cbn [dict_keys map fst] in Hnodup.
  apply NoDup_cons_iff in Hnodup. destruct Hnodup as [Hfresh Hnodup].
  destruct (String.eqb_spec k' k) as [->|Hneq].
  - injection H as ->.
    assert (Hrest : dict_get rest k = None).
    { clear -Hfresh. induction rest as [|[k2 v2] rest IH]; [reflexivity|].
      cbn [dict_get]. cbn [dict_keys map fst In] in Hfresh.
      destruct (String.eqb_spec k2 k); [tauto|]. apply IH. tauto. }
    rewrite (stamped_absent _ _ Hrest). destruct v; reflexivity.
  - rewrite (IH Hnodup H). destruct v; reflexivity.
Qed.

(** Stamping key after key is stamping all the keys at once. *)
Lemma stamped_entry_cons (k : string) (keys : list string)
    (entry : string * json) :
  ~ In k keys ->
  stamped_entry (k :: keys) entry =
  match stamped_entry [k] entry with
  | Some entry' => stamped_entry keys entry'
  | None => None
  end.
Proof.
  intros Hfresh.
  assert (Hk : existsb (String.eqb k) keys = false).
  { apply not_true_is_false. intros H. apply existsb_exists in H.
    destruct H as (k' & Hin & E). apply String.eqb_eq in E. subst k'. tauto. }
  destruct entry as [k' v]. unfold stamped_entry. cbn [existsb fst snd].
  rewrite orb_false_r.
  destruct (String.eqb_spec k' k) as [->|Hneq]; cbn [orb fst snd].
  - destruct v; cbn [fst snd]; try reflexivity. rewrite Hk. reflexivity.
  - reflexivity.
Qed.

Lemma stamped_cons (k : string) (keys : list string) (fields : dict) :
  ~ In k keys ->
  stamped (k :: keys) fields =
  match stamped [k] fields with
  | Some fields' => stamped keys fields'
  | None => None
  end.
Proof.
  intros Hfresh. induction fields as [|entry rest IH]; [reflexivity|].
  cbn [stamped]. rewrite IH, (stamped_entry_cons k keys entry Hfresh).
  destruct (stamped_entry [k] entry) as [entry'|]; [|reflexivity].
  destruct (stamped [k] rest) as [rest'|]; [reflexivity|].
  destruct (stamped_entry keys entry'); reflexivity.
Qed.

Lemma stamp_keys_stamped (keys : list string) :
  NoDup keys ->
  forall (key : option string) (fields : dict),
  NoDup (dict_keys fields) ->
  stamp_keys keys key (JObj fields) =
  match stamped keys fields with
  | Some fields' =>
      Returned (match keys with [] => key | _ => Some (last keys "") end,
                JObj fields')
  | None => Raised TypeError
  end.
Proof.
  induction 1 as [|k rest Hfresh Hrest IH]; intros key fields Hnodup.
  - cbn [stamp_keys]. rewrite stamped_nil. reflexivity.
  - cbn [stamp_keys py_in obind]. rewrite (stamped_cons k rest fields Hfresh).
    unfold dict_mem. destruct (dict_get fields k) as [v|] eqn:Hget.
    + rewrite (stamped_present k fields v Hnodup Hget).
      unfold stamp_repository. cbn [py_getitem]. rewrite Hget. cbn [obind].
      destruct v; try reflexivity.
      cbn [py_setitem obind]. rewrite IH.
      * destruct (stamped rest _); [|reflexivity]. destruct rest; reflexivity.
      * assert (Hs := stamped_present k fields (JObj fields0) Hnodup Hget).
        cbn in Hs. apply stamped_keys in Hs. rewrite Hs. exact Hnodup.
    + rewrite (stamped_absent k fields Hget). rewrite (IH _ _ Hnodup).
      destruct (stamped rest fields); [|reflexivity]. destruct rest; reflexivity.
Qed.

Lemma KEYS_NoDup : NoDup KEYS.
Proof.
  unfold KEYS. repeat constructor; cbn [In]; intuition discriminate.
Qed.

(** What a file holding a mapping contributes. *)
Lemma loaded_mapping (fields : dict) :
  NoDup (dict_keys fields) ->
  loaded (Some (JObj fields)) = option_map JObj (stamped KEYS fields).
Proof.
  intros Hnodup. unfold loaded.
  rewrite (stamp_keys_stamped KEYS KEYS_NoDup None fields Hnodup).
  destruct (stamped KEYS fields); reflexivity.
Qed.

(** Stamping leaves alone an object that holds none of the identifiers. *)
Lemma loaded_without_identifiers (fields : dict) :
  (forall key, In key KEYS -> dict_mem fields key = false) ->
  loaded (Some (JObj fields)) = Some (JObj fields).
Proof.
  intros Hnone. unfold loaded.
  assert (H : forall keys key,
             (forall k, In k keys -> dict_mem fields k = false) ->
             exists key', stamp_keys keys key (JObj fields)
                          = Returned (key', JObj fields)).
  { induction keys as [|k rest IH]; intros key Hrest; cbn [stamp_keys py_in obind].
    - eauto.
    - rewrite (Hrest k (or_introl eq_refl)).
      apply IH. intros k' Hin. apply Hrest. right. exact Hin. }
  destruct (H KEYS None Hnone) as (key' & ->). reflexivity.
Qed.

(** C1, on the code: the merged document never holds the key
    ["numpy/numpy"], whatever the files; two files that both hold it are
    merged into one entry under ["mlflow/mlflow"], the whole second file. *)
Theorem numpy_key_is_never_merged :
  (forall json_files : list (string * option json),
     dict_get (combine json_files []) "numpy/numpy" = None) /\
  combine two_numpy_files [] =
    [("mlflow/mlflow",
      JObj [("numpy/numpy",
             JObj [("repository", JStr "numpy/numpy"); ("commits", JArr [])])])].
Proof.
  split; [|reflexivity].
  intros json_files.
  change (combine json_files []) with (combine json_files (merged None)).
  rewrite combine_merged.
  destruct (last_loaded json_files None); reflexivity.
Qed.

(** C10, as stated, fails: a file that parses but holds a number under an
    identifier is dropped, so the merged value is not the content of the last
    file that parses; and the merged value of a file is its content as the
    stamping left it, not as it was read. *)
Lemma merged_value_counterexample :
  last_parsed unstampable_last None = Some (JObj [("numpy/numpy", JInt 5)]) /\
  dict_get (combine unstampable_last []) "mlflow/mlflow"
    = Some (JObj [("a", JInt 1)]) /\
  dict_get (combine unstampable_last []) "mlflow/mlflow"
    <> last_parsed unstampable_last None /\
  dict_get (combine restamped []) "mlflow/mlflow"
    <> last_parsed restamped None.
Proof.
  split; [reflexivity|]. split; [reflexivity|].
  split; vm_compute; discriminate.
Qed.

Section MergerMain.

Variable timestamp : string.

(** C10, as amended.  The merged document has at most one key,
    ["mlflow/mlflow"]; its value is the whole content of the last file whose
    [try] body ran through, as the stamping left it.  For a file that holds
    a mapping that means: every identifier found in it holds a mapping, whose
    [repository] is overwritten; without any identifier the content is kept as
    read.  The document is written once, whenever there is a file to scan. *)
Theorem merged_document_single_key (json_files : list (string * option json)) :
  json_files <> [] ->
  combine json_files [] = merged (last_loaded json_files None) /\
  (List.length (combine json_files []) <= 1)%nat /\
  (forall key, In key (dict_keys (combine json_files [])) -> key = "mlflow/mlflow") /\
  (forall fields, NoDup (dict_keys fields) ->
     loaded (Some (JObj fields)) = option_map JObj (stamped KEYS fields)) /\
  (forall fields, (forall key, In key KEYS -> dict_mem fields key = false) ->
     loaded (Some (JObj fields)) = Some (JObj fields)) /\
  main timestamp (Some json_files) =
    [("data/raw/" ++ "combined_data_" ++ timestamp ++ ".json",
      JObj (merged (last_loaded json_files None)))].
Proof.
  intros Hsome.
  assert (H : combine json_files [] = merged (last_loaded json_files None))
    by exact (combine_merged json_files None).
  rewrite H.
  split; [reflexivity|].
  split; [destruct (last_loaded json_files None); cbn; lia|].
  split; [destruct (last_loaded json_files None); cbn; intuition|].
  split; [exact loaded_mapping|].
  split; [exact loaded_without_identifiers|].
  unfold main, save_data. destruct json_files; [contradiction|].
  rewrite H. reflexivity.
Qed.

End MergerMain.

Lemma merged_document_single_key_witness :
  combine two_numpy_files [] =
    merged (last_loaded two_numpy_files None) /\
  (List.length (combine two_numpy_files []) <= 1)%nat /\
  (forall key, In key (dict_keys (combine two_numpy_files [])) ->
               key = "mlflow/mlflow") /\
  (forall fields, NoDup (dict_keys fields) ->
     loaded (Some (JObj fields)) = option_map JObj (stamped KEYS fields)) /\
  (forall fields, (forall key, In key KEYS -> dict_mem fields key = false) ->
     loaded (Some (JObj fields)) = Some (JObj fields)) /\
  main "20260101_120000" (Some two_numpy_files) =
    [("data/raw/" ++ "combined_data_" ++ "20260101_120000" ++ ".json",
      JObj (merged (last_loaded two_numpy_files None)))].
Proof.
  apply (merged_document_single_key "20260101_120000" two_numpy_files).
  discriminate.
Defined.

End MergerFacts.

(** ** More facts about the Collector *)

Module CollectorCoverage.
Import Py ApiFetch CollectorFacts.

Lemma py_iter_len (v : json) (items : list json) (n : Z) :
  py_iter v = Returned items -> py_len v = Returned n ->
  n = Z.of_nat (List.length items).
Proof.
  destruct v; cbn [py_iter py_len]; try discriminate;
    intros [= <-] [= <-]; try reflexivity.
  - clear. f_equal. induction s as [|c s IH]; cbn; congruence.
  - rewrite length_map. reflexivity.
Qed.

Section Coverage.

Variable GITHUB_TOKEN : string.
Variable server : nat -> request -> response.
Variable strftime_now : nat -> string.
Variable isoformat_now : nat -> string.
Variable localtime_ok : json -> bool.

Local Abbreviation requests_get := (requests_get GITHUB_TOKEN server).
Local Abbreviation check_rate_limit := (check_rate_limit GITHUB_TOKEN server localtime_ok).
Local Abbreviation fetch_issues_loop := (fetch_issues_loop GITHUB_TOKEN server).
Local Abbreviation fetch_issues := (fetch_issues GITHUB_TOKEN server).
Local Abbreviation fetch_commits_loop := (fetch_commits_loop GITHUB_TOKEN server).
Local Abbreviation fetch_commits := (fetch_commits GITHUB_TOKEN server).
Local Abbreviation fetch_repo_info := (fetch_repo_info GITHUB_TOKEN server).
Local Abbreviation visit := (visit GITHUB_TOKEN server isoformat_now localtime_ok).
Local Abbreviation collect := (collect GITHUB_TOKEN server isoformat_now localtime_ok).
Local Abbreviation main :=
  (main GITHUB_TOKEN server strftime_now isoformat_now localtime_ok).
Local Abbreviation issues_request := (issues_request GITHUB_TOKEN).
Local Abbreviation commits_request := (commits_request GITHUB_TOKEN).
Local Abbreviation rate_limit_request := (rate_limit_request GITHUB_TOKEN).
Local Abbreviation answer := (answer server).

(** *** The requests a fetch sends *)

Lemma fetch_issues_loop_trace (repo : string) (max_issues : Z) :
  forall (fuel : nat) (issues : list json) (page : Z) (w : world),
  exists k : nat,
    (k <= fuel)%nat /\
    requests (snd (fetch_issues_loop fuel repo max_issues issues page w)) =
    (requests w ++ map (issues_request repo) (pages_from page k))%list.
Proof.
  induction fuel as [|fuel IH]; intros issues page w;
    cbn [ApiFetch.fetch_issues_loop];
    (destruct (Z.of_nat (List.length issues) <? max_issues);
     [|exists 0%nat; cbn; rewrite app_nil_r; split; [lia | reflexivity]]).
  - exists 0%nat. cbn. rewrite app_nil_r. auto.
  - unfold bind at 1. rewrite requests_get_sent.
    fold (issues_request repo page).
    assert (Hone : exists k : nat, (k <= S fuel)%nat /\
              requests (sent w (issues_request repo page)) =
              (requests w ++ map (issues_request repo) (pages_from page k))%list).
    { exists 1%nat. split; [lia | reflexivity]. }
    destruct (status_code _ =? 200); cbn [bind lift ret].
    + destruct (response_json _) as [batch| |]; try exact Hone.
      destruct (is_empty_batch batch) as [[|]| |]; try exact Hone.
      destruct (obind (py_iter batch) without_pull_requests) as [kept| |];
        try exact Hone.
      cbn [bind lift ret].
      destruct (_ >=? _); [exact Hone|].
      destruct (IH (issues ++ kept)%list (page + 1)
                  (sent w (issues_request repo page))) as (k & Hk & Htrace).
      exists (S k). split; [lia|]. rewrite Htrace. cbn [sent requests pages_from map].
      rewrite <- app_assoc. reflexivity.
    + destruct (obind _ _); exact Hone.
Qed.

Lemma fetch_commits_loop_trace (repo : string) (max_commits : Z) :
  forall (fuel : nat) (commits : list json) (page : Z) (w : world),
  exists k : nat,
    (k <= fuel)%nat /\
    requests (snd (fetch_commits_loop fuel repo max_commits commits page w)) =
    (requests w ++ map (commits_request repo) (pages_from page k))%list /\
    (k = 0%nat \/
     100 * (Z.of_nat k - 1) + Z.of_nat (List.length commits) < max_commits).
Proof.
  induction fuel as [|fuel IH]; intros commits page w;
    cbn [ApiFetch.fetch_commits_loop];
    (destruct (Z.ltb_spec (Z.of_nat (List.length commits)) max_commits) as [Hlt|Hge];
     [|exists 0%nat; cbn; rewrite app_nil_r; split; [lia | auto]]).
  - exists 0%nat. cbn. rewrite app_nil_r. auto.
  - unfold bind at 1. rewrite requests_get_sent.
    fold (commits_request repo page).
    assert (Hone : exists k : nat, (k <= S fuel)%nat /\
              requests (sent w (commits_request repo page)) =
              (requests w ++ map (commits_request repo) (pages_from page k))%list /\
              (k = 0%nat \/
               100 * (Z.of_nat k - 1) + Z.of_nat (List.length commits)
               < max_commits)).
    { exists 1%nat. split; [lia|]. split; [reflexivity | right; lia]. }
    destruct (status_code _ =? 200); cbn [bind lift ret].
    + destruct (response_json _) as [batch| |]; try exact Hone.
      destruct (is_empty_batch batch) as [[|]| |]; try exact Hone.
      destruct (py_iter batch) as [items| |] eqn:Hitems; try exact Hone.
      cbn [bind lift ret].
      destruct (py_len batch) as [n| |] eqn:Hn; try exact Hone.
      destruct (Z.ltb_spec n per_page) as [Hshort|Hfull]; [exact Hone|].
      pose proof (py_iter_len _ _ _ Hitems Hn) as Hlen. unfold per_page in Hfull.
      destruct (IH (commits ++ items)%list (page + 1)
                  (sent w (commits_request repo page)))
        as (k & Hk & Htrace & Hbound).
      exists (S k). split; [lia|]. split.
      * rewrite Htrace. cbn [sent requests pages_from map].
        rewrite <- app_assoc. reflexivity.
      * right. rewrite length_app in Hbound. destruct Hbound as [->|Hbound]; lia.
    + destruct (obind _ _); exact Hone.
Qed.

(** With enough fuel for the cap, the loop of [fetch_commits] is never cut
    off: a page that lets it go on brings at least [per_page] items. *)
Lemma fetch_commits_loop_ends (repo : string) (max_commits : Z) :
  forall (fuel : nat) (commits : list json) (page : Z) (w : world),
  max_commits - Z.of_nat (List.length commits) <= 100 * Z.of_nat fuel ->
  fst (fetch_commits_loop fuel repo max_commits commits page w) <> OutOfFuel.
Proof.
  induction fuel as [|fuel IH]; intros commits page w Hfuel;
    cbn [ApiFetch.fetch_commits_loop];
    (destruct (Z.ltb_spec (Z.of_nat (List.length commits)) max_commits) as [Hlt|Hge];
     [|discriminate]).
  - lia.
  - unfold bind at 1. rewrite requests_get_sent.
    destruct (status_code _ =? 200); cbn [bind lift ret].
    + destruct (response_json _) as [batch| |] eqn:Hbody; try discriminate.
      * destruct (is_empty_batch batch) as [[|]| |] eqn:Hempty; try discriminate.
        -- destruct (py_iter batch) as [items| |] eqn:Hitems.
           ++ cbn [bind lift ret].
              destruct (py_len batch) as [n| |] eqn:Hn.
              ** destruct (Z.ltb_spec n per_page) as [Hshort|Hfull];
                   [discriminate|].
                 pose proof (py_iter_len _ _ _ Hitems Hn) as Hlen.
                 unfold per_page in Hfull.
                 apply IH. rewrite length_app. lia.
              ** discriminate.
              ** exfalso. destruct batch; discriminate.
           ++ discriminate.
           ++ exfalso. destruct batch; discriminate.
        -- exfalso. unfold is_empty_batch in Hempty.
           destruct (negb (truthy batch)); [discriminate|].
           destruct batch; discriminate.
      * exfalso. unfold response_json in Hbody.
        destruct (content _); discriminate.
    + destruct (response_json _) as [j| |] eqn:Hbody; cbn [obind].
      * destruct j; cbn [py_get]; try discriminate.
        destruct (dict_get _ _); discriminate.
      * discriminate.
      * exfalso. unfold response_json in Hbody.
        destruct (content _); discriminate.
Qed.

Lemma fetch_world {A B} (c : M A) (f : A -> B) (w : world) :
  snd (bind c (fun a => ret (f a)) w) = snd (c w).
Proof.
  unfold bind, ret. destruct (c w) as [[a| |] w']; reflexivity.
Qed.

(** X1.  Whatever the server sends and however the call ends, the requests
    of [fetch_issues] and of [fetch_commits] ask for the pages 1, 2, 3, ...
    in this order, without a gap or a repeat; and [fetch_commits] asks for
    at most one page per hundred of the cap, rounded up. *)
Theorem fetch_requests_in_page_order (fuel : nat) (repo : string) (cap : Z)
    (w : world) :
  (exists k : nat,
     (k <= fuel)%nat /\
     requests (snd (fetch_issues fuel repo cap w)) =
     (requests w ++ map (issues_request repo) (pages_from 1 k))%list) /\
  (exists k : nat,
     (k <= fuel)%nat /\
     requests (snd (fetch_commits fuel repo cap w)) =
     (requests w ++ map (commits_request repo) (pages_from 1 k))%list /\
     (k = 0%nat \/ 100 * (Z.of_nat k - 1) < cap)).
Proof.
  unfold ApiFetch.fetch_issues, ApiFetch.fetch_commits. rewrite !fetch_world.
  split.
  - apply fetch_issues_loop_trace.
  - destruct (fetch_commits_loop_trace repo cap fuel [] 1 w)
      as (k & Hk & Htrace & Hbound).
    exists k. cbn [List.length] in Hbound. repeat split; auto.
    destruct Hbound; [left | right]; lia.
Qed.

(** X2.  [fetch_commits] always ends: with one unit of fuel per hundred of
    the cap it returns or raises, whatever the server sends; and when it
    returns under a cap [N >= 0], it returns at most [N] items. *)
Theorem fetch_commits_ends_within_cap (fuel : nat) (repo : string) (N : Z)
    (w : world) :
  0 <= N ->
  N <= 100 * Z.of_nat fuel ->
  fst (fetch_commits fuel repo N w) <> OutOfFuel /\
  (forall commits w',
     fetch_commits fuel repo N w = (Returned commits, w') ->
     Z.of_nat (List.length commits) <= N).
Proof.
  intros HN Hfuel. split.
  - pose proof (fetch_commits_loop_ends repo N fuel [] 1 w) as H.
    unfold ApiFetch.fetch_commits, bind, ret.
    destruct (fetch_commits_loop fuel repo N [] 1 w) as [[acc| |] w1];
      cbn [fst] in *; try discriminate.
    apply H. cbn [List.length]. lia.
  - intros commits w' Hrun. unfold ApiFetch.fetch_commits, bind, ret in Hrun.
    destruct (fetch_commits_loop fuel repo N [] 1 w) as [[acc| |] w1];
      try discriminate.
    injection Hrun as <- <-. apply slice_to_length, HN.
Qed.

(** *** A failed page whose body cannot be read *)

Lemma serves_then_tail (rq : Z -> request) (first : Z) (batch : list dict)
    (pages : list (list dict)) (failure : response) :
  serves_then server rq first (batch :: pages) failure ->
  answer initial_world (rq first) = ok_page batch /\
  (forall w, answer w (rq first) = ok_page batch) /\
  serves_then server rq (first + 1) pages failure.
Proof.
  intros [Hpages Hfail].
  assert (Hhead : forall w, answer w (rq first) = ok_page batch).
  { intros w. unfold ApiFetch.answer.
    replace first with (first + Z.of_nat 0) at 1 by (cbn; lia).
    apply (Hpages _ 0%nat). cbn. lia. }
  split; [apply Hhead|]. split; [exact Hhead|]. split.
  - intros n k Hk.
    replace (first + 1 + Z.of_nat k) with (first + Z.of_nat (S k)) by lia.
    apply (Hpages n (S k)). cbn [List.length]. lia.
  - intros n.
    replace (first + 1 + Z.of_nat (List.length pages))
      with (first + Z.of_nat (List.length (batch :: pages)))
      by (cbn [List.length]; lia).
    apply Hfail.
Qed.

Lemma fetch_issues_loop_unreadable (fuel : nat) (repo : string) (max_issues : Z)
    (issues : list json) (page : Z) (w : world) (failure : response) :
  answer w (issues_request repo page) = failure ->
  status_code failure <> 200 ->
  content failure = None ->
  Z.of_nat (List.length issues) < max_issues ->
  fetch_issues_loop (S fuel) repo max_issues issues page w =
  (Raised JSONDecodeError, sent w (issues_request repo page)).
Proof.
  intros Hpage Hstatus Hbody Hcap. cbn [ApiFetch.fetch_issues_loop].
  destruct (Z.ltb_spec (Z.of_nat (List.length issues)) max_issues); [|lia].
  unfold bind at 1. rewrite requests_get_sent.
  fold (issues_request repo page). rewrite Hpage.
  destruct (Z.eqb_spec (status_code failure) 200) as [E|_]; [contradiction|].
  unfold response_json. rewrite Hbody. reflexivity.
Qed.

Lemma fetch_commits_loop_unreadable (fuel : nat) (repo : string)
    (max_commits : Z) (commits : list json) (page : Z) (w : world)
    (failure : response) :
  answer w (commits_request repo page) = failure ->
  status_code failure <> 200 ->
  content failure = None ->
  Z.of_nat (List.length commits) < max_commits ->
  fetch_commits_loop (S fuel) repo max_commits commits page w =
  (Raised JSONDecodeError, sent w (commits_request repo page)).
Proof.
  intros Hpage Hstatus Hbody Hcap. cbn [ApiFetch.fetch_commits_loop].
  destruct (Z.ltb_spec (Z.of_nat (List.length commits)) max_commits); [|lia].
  unfold bind at 1. rewrite requests_get_sent.
  fold (commits_request repo page). rewrite Hpage.
  destruct (Z.eqb_spec (status_code failure) 200) as [E|_]; [contradiction|].
  unfold response_json. rewrite Hbody. reflexivity.
Qed.

Lemma fetch_issues_loop_lost (repo : string) (max_issues : Z)
    (failure : response) (pages : list (list dict)) :
  status_code failure <> 200 ->
  content failure = None ->
  forall (fuel : nat) (issues : list json) (page : Z) (w : world),
  (List.length pages < fuel)%nat ->
  Forall (fun batch => batch <> []) pages ->
  serves_then server (issues_request repo) page pages failure ->
  Z.of_nat (List.length issues)
    + Z.of_nat (List.length (List.concat (map issues_only pages))) < max_issues ->
  fst (fetch_issues_loop fuel repo max_issues issues page w) =
  Raised JSONDecodeError.
Proof.
  intros Hstatus Hbody.
  induction pages as [|batch rest IH]; intros fuel issues page w Hfuel Hfull Hsrv Hcap;
    (destruct fuel as [|fuel]; [cbn [List.length] in Hfuel; lia|]).
  - destruct Hsrv as [_ Hfail]. specialize (Hfail (List.length (requests w))).
    cbn [List.length] in Hfail. rewrite Z.add_0_r in Hfail.
    rewrite (fetch_issues_loop_unreadable _ _ _ _ _ _ failure Hfail Hstatus Hbody);
      [reflexivity|].
    cbn [map List.concat List.length] in Hcap. lia.
  - apply serves_then_tail in Hsrv. destruct Hsrv as (_ & Hhead & Hrest).
    rewrite (fetch_issues_loop_page _ _ _ _ _ _ _ _ _ (Hhead w)).
    cbn [map List.concat] in Hcap. rewrite length_app in Hcap.
    destruct (Z.ltb_spec (Z.of_nat (List.length issues)) max_issues); [|lia].
    inversion Hfull as [|? ? Hbatch Hfull']; subst.
    destruct batch as [|item batch']; [contradiction|]. cbv zeta.
    destruct (Z.geb_spec
      (Z.of_nat (List.length (issues ++ map JObj (issues_only (item :: batch')))%list))
      max_issues) as [Hreached|_].
    + rewrite length_app, length_map in Hreached. unfold dict in *. lia.
    + apply IH; auto.
      * cbn [List.length] in Hfuel. lia.
      * rewrite length_app, length_map. unfold dict in *. lia.
Qed.

Lemma fetch_commits_loop_lost (repo : string) (max_commits : Z)
    (failure : response) (pages : list (list dict)) :
  status_code failure <> 200 ->
  content failure = None ->
  forall (fuel : nat) (commits : list json) (page : Z) (w : world),
  (List.length pages < fuel)%nat ->
  Forall (fun batch => per_page <= Z.of_nat (List.length batch)) pages ->
  serves_then server (commits_request repo) page pages failure ->
  Z.of_nat (List.length commits)
    + Z.of_nat (List.length (List.concat pages)) < max_commits ->
  fst (fetch_commits_loop fuel repo max_commits commits page w) =
  Raised JSONDecodeError.
Proof.
  intros Hstatus Hbody.
  induction pages as [|batch rest IH]; intros fuel commits page w Hfuel Hfull Hsrv Hcap;
    (destruct fuel as [|fuel]; [cbn [List.length] in Hfuel; lia|]).
  - destruct Hsrv as [_ Hfail]. specialize (Hfail (List.length (requests w))).
    cbn [List.length] in Hfail. rewrite Z.add_0_r in Hfail.
    rewrite (fetch_commits_loop_unreadable _ _ _ _ _ _ failure Hfail Hstatus Hbody);
      [reflexivity|].
    cbn [List.concat List.length] in Hcap. lia.
  - apply serves_then_tail in Hsrv. destruct Hsrv as (_ & Hhead & Hrest).
    rewrite (fetch_commits_loop_page _ _ _ _ _ _ _ _ _ (Hhead w)).
    cbn [List.concat] in Hcap. rewrite length_app in Hcap.
    destruct (Z.ltb_spec (Z.of_nat (List.length commits)) max_commits); [|lia].
    inversion Hfull as [|? ? Hbatch Hfull']; subst. unfold per_page in *.
    destruct batch as [|item batch']; [cbn in Hbatch; lia|]. cbv zeta.
    destruct (Z.ltb_spec (Z.of_nat (List.length (item :: batch'))) 100); [lia|].
    apply IH; auto.
    + cbn [List.length] in Hfuel. lia.
    + rewrite length_app, length_map. unfold dict in *. lia.
Qed.

(** X3.  When the pages read so far have not filled the cap and the next
    request fails with a body that is not JSON, the line that logs the
    message raises: [fetch_issues] and [fetch_commits] end in
    [JSONDecodeError], and the items of the pages already read are lost. *)
Theorem fetch_loses_pages_on_unreadable_failure (fuel : nat) (repo : string)
    (cap : Z) (issue_pages commit_pages : list (list dict))
    (failure : response) (w : world) :
  status_code failure <> 200 ->
  content failure = None ->
  (List.length issue_pages < fuel)%nat ->
  (List.length commit_pages < fuel)%nat ->
  Forall (fun batch => batch <> []) issue_pages ->
  Forall (fun batch => per_page <= Z.of_nat (List.length batch)) commit_pages ->
  serves_then server (issues_request repo) 1 issue_pages failure ->
  serves_then server (commits_request repo) 1 commit_pages failure ->
  Z.of_nat (List.length (List.concat (map issues_only issue_pages))) < cap ->
  Z.of_nat (List.length (List.concat commit_pages)) < cap ->
  fst (fetch_issues fuel repo cap w) = Raised JSONDecodeError /\
  fst (fetch_commits fuel repo cap w) = Raised JSONDecodeError.
Proof.
  intros Hstatus Hbody Hfi Hfc Hi Hc Hsi Hsc Hcapi Hcapc.
  pose proof (fetch_issues_loop_lost repo cap failure issue_pages Hstatus Hbody
                fuel [] 1 w Hfi Hi Hsi Hcapi) as Hissues.
  pose proof (fetch_commits_loop_lost repo cap failure commit_pages Hstatus Hbody
                fuel [] 1 w Hfc Hc Hsc Hcapc) as Hcommits.
  unfold ApiFetch.fetch_issues, ApiFetch.fetch_commits, bind, ret.
  destruct (fetch_issues_loop fuel repo cap [] 1 w) as [oi wi].
  destruct (fetch_commits_loop fuel repo cap [] 1 w) as [oc wc].
  cbn [fst] in *. subst oi oc. split; reflexivity.
Qed.

(** *** What a run of [main] leaves behind *)

Lemma keeps_clock_ret {A} (a : A) : keeps_clock (ret a).
Proof. intros w. reflexivity. Qed.

Lemma keeps_clock_lift {A} (o : outcome A) : keeps_clock (lift o).
Proof. intros w. reflexivity. Qed.

Lemma keeps_clock_bind {A B} (c : M A) (k : A -> M B) :
  keeps_clock c -> (forall a, keeps_clock (k a)) -> keeps_clock (bind c k).
Proof.
  intros Hc Hk w. unfold bind. specialize (Hc w).
  destruct (c w) as [[a| |] w1]; cbn [snd] in *; try exact Hc.
  rewrite (Hk a w1). exact Hc.
Qed.

Lemma keeps_clock_check_rate_limit : keeps_clock check_rate_limit.
Proof.
  unfold ApiFetch.check_rate_limit.
  repeat first
    [ apply keeps_clock_ret
    | apply keeps_clock_lift
    | apply keeps_clock_bind; [|intro]
    | match goal with
      | |- keeps_clock (if ?b then _ else _) => destruct b
      | |- keeps_clock (requests_get _ _) => intros w; reflexivity
      end ].
Qed.

Lemma writes_only_keeps {A} (allowed : string -> Prop) (c : M A) :
  keeps_files c -> writes_only allowed c.
Proof.
  intros H w. exists []. rewrite app_nil_r. split; [apply H | constructor].
Qed.

Lemma writes_only_bind {A B} (allowed : string -> Prop) (c : M A)
    (k : A -> M B) :
  writes_only allowed c -> (forall a, writes_only allowed (k a)) ->
  writes_only allowed (bind c k).
Proof.
  intros Hc Hk w. unfold bind. destruct (Hc w) as (fs & Hfs & Hall).
  destruct (c w) as [[a| |] w1]; cbn [snd] in *; try (exists fs; tauto).
  destruct (Hk a w1) as (fs' & Hfs' & Hall').
  exists (fs ++ fs')%list. rewrite Hfs', Hfs, app_assoc.
  split; [reflexivity | apply Forall_app; tauto].
Qed.

Lemma writes_only_visit (fuel : nat) (timestamp repo : string) (all_data : dict) :
  In repo REPOSITORIES ->
  writes_only (repo_file_of timestamp) (visit fuel timestamp repo all_data).
Proof.
  intros Hin. unfold ApiFetch.visit.
  apply writes_only_bind; [apply writes_only_keeps, keeps_files_datetime_now|].
  intros t.
  apply writes_only_bind; [apply writes_only_keeps, keeps_files_fetch_repo_info|].
  intros info.
  apply writes_only_bind; [apply writes_only_keeps, keeps_files_fetch_issues|].
  intros issues.
  apply writes_only_bind; [apply writes_only_keeps, keeps_files_fetch_commits|].
  intros commits.
  apply writes_only_bind.
  - intros w. eexists. split; [reflexivity|].
    constructor; [|constructor]. exists repo. split; [exact Hin | reflexivity].
  - intros _.
    apply writes_only_bind;
      [apply writes_only_keeps, keeps_files_check_rate_limit|].
    intros remaining.
    apply writes_only_bind; [apply writes_only_keeps, keeps_files_lift|].
    intros low. apply writes_only_keeps, keeps_files_ret.
Qed.

Lemma writes_only_collect (fuel : nat) (timestamp : string) :
  forall (repos : list string) (all_data : dict),
  incl repos REPOSITORIES ->
  writes_only (repo_file_of timestamp) (collect fuel timestamp repos all_data).
Proof.
  induction repos as [|repo rest IH]; intros all_data Hincl;
    cbn [ApiFetch.collect].
  - apply writes_only_keeps, keeps_files_ret.
  - apply writes_only_bind.
    + apply writes_only_visit, Hincl. left. reflexivity.
    + intros [all_data' low]. cbn [fst snd]. destruct low.
      * apply writes_only_keeps, keeps_files_ret.
      * apply IH. intros r Hr. apply Hincl. right. exact Hr.
Qed.

Lemma visit_snapshot (fuel : nat) (timestamp repo : string) (all_data : dict)
    (w : world) (all_data' : dict) (low : bool) (w' : world) :
  visit fuel timestamp repo all_data w = (Returned (all_data', low), w') ->
  exists data,
    repository_snapshot (repo, data) /\
    all_data' = dict_set all_data repo data /\
    files w' = (files w ++ [repo_file timestamp (repo, data)])%list.
Proof.
  unfold ApiFetch.visit. intros H.
  apply bind_returned in H. destruct H as (t & w1 & Ht & H).
  apply bind_returned in H. destruct H as (info & w2 & Hinfo & H).
  apply bind_returned in H. destruct H as (issues & w3 & Hissues & H).
  apply bind_returned in H. destruct H as (commits & w4 & Hcommits & H).
  apply bind_returned in H. destruct H as ([] & w5 & Hsave & H).
  apply bind_returned in H. destruct H as (remaining & w6 & Hcheck & H).
  apply bind_returned in H. destruct H as (low' & w7 & Hlow & H).
  unfold lift in Hlow. unfold ret in H.
  injection H as <- <- <-. injection Hlow as Hlow <-.
  eexists. split; [|split; [reflexivity|]].
  - exists (isoformat_now t), info, issues, commits.
    split; [reflexivity|]. split; [|split].
    + unfold ApiFetch.fetch_issues, bind, ret in Hissues.
      destruct (fetch_issues_loop fuel repo 100 [] 1 w2) as [[acc| |] wi];
        try discriminate.
      injection Hissues as <- _. apply slice_to_length. lia.
    + exact (fetch_issues_unmarked GITHUB_TOKEN server _ _ _ _ _ _ Hissues).
    + unfold ApiFetch.fetch_commits, bind, ret in Hcommits.
      destruct (fetch_commits_loop fuel repo 100 [] 1 w3) as [[acc| |] wc];
        try discriminate.
      injection Hcommits as <- _. apply slice_to_length. lia.
  - pose proof (keeps_files_datetime_now w) as F1. rewrite Ht in F1.
    pose proof (keeps_files_fetch_repo_info GITHUB_TOKEN server repo w1) as F2.
    rewrite Hinfo in F2.
    pose proof (keeps_files_fetch_issues GITHUB_TOKEN server fuel repo 100 w2) as F3.
    rewrite Hissues in F3.
    pose proof (keeps_files_fetch_commits GITHUB_TOKEN server fuel repo 100 w3) as F4.
    rewrite Hcommits in F4.
    pose proof (keeps_files_check_rate_limit GITHUB_TOKEN server localtime_ok w5) as F6.
    rewrite Hcheck in F6.
    cbn [snd] in *. unfold ApiFetch.save_data in Hsave.
    injection Hsave as <-. cbn [files] in F6.
    rewrite F6, F4, F3, F2, F1. reflexivity.
Qed.

Lemma collect_snapshots (fuel : nat) (timestamp : string) :
  forall (repos : list string) (all_data : dict) (w : world)
         (all_data' : dict) (w' : world),
  collect fuel timestamp repos all_data w = (Returned all_data', w') ->
  exists (entries : dict) (n : nat),
    dict_keys entries = firstn n repos /\
    (repos = [] \/ 0 < n)%nat /\
    all_data' = record_all entries all_data /\
    files w' = (files w ++ map (repo_file timestamp) entries)%list /\
    Forall repository_snapshot entries.
Proof.
  induction repos as [|repo rest IH]; intros all_data w all_data' w' H;
    cbn [ApiFetch.collect] in H.
  - injection H as <- <-. exists [], 0%nat. cbn [map]. rewrite app_nil_r.
    repeat split; auto.
  - apply bind_returned in H. destruct H as ([all_data1 low] & w1 & Hvisit & H).
    apply visit_snapshot in Hvisit.
    destruct Hvisit as (data & Hdata & -> & Hfiles).
    cbn [fst snd] in H. destruct low.
    + injection H as <- <-. exists [(repo, data)], 1%nat.
      split; [reflexivity|]. split; [right; lia|]. repeat split; auto.
    + apply IH in H.
      destruct H as (entries & n & Hkeys & _ & -> & Hfiles' & Hall).
      exists ((repo, data) :: entries), (S n).
      cbn [dict_keys map fst firstn]. split; [f_equal; exact Hkeys|].
      split; [right; lia|]. split; [reflexivity|].
      split; [rewrite Hfiles', Hfiles, <- app_assoc; reflexivity|].
      constructor; assumption.
Qed.

Lemma snapshots_summary (entries : dict) :
  Forall repository_snapshot entries ->
  Forall (fun entry => snapshot (snd entry)) entries.
Proof.
  apply Forall_impl. intros entry (collected & info & issues & commits & -> & _).
  exists issues, commits. split; reflexivity.
Qed.

Lemma main_unfold (fuel : nat) (w : world) :
  main fuel w =
  match check_rate_limit w with
  | (Returned remaining, w1) =>
      match py_lt remaining 100 with
      | Returned true => (Returned tt, w1)
      | Returned false =>
          bind (collect fuel (strftime_now (clock_reads w1)) REPOSITORIES [])
            (fun all_data =>
               _ <- save_data (JObj all_data)
                      (all_repos_filename (strftime_now (clock_reads w1))) ;;
               lift (summary all_data)) (tick w1)
      | Raised e => (Raised e, w1)
      | OutOfFuel => (OutOfFuel, w1)
      end
  | (Raised e, w1) => (Raised e, w1)
  | (OutOfFuel, w1) => (OutOfFuel, w1)
  end.
Proof.
  unfold ApiFetch.main. unfold bind at 1.
  destruct (check_rate_limit w) as [[remaining| |] w1]; try reflexivity.
  unfold bind at 1, lift at 1.
  destruct (py_lt remaining 100) as [[|]| |]; reflexivity.
Qed.

(** What [main] has done when it returns: nothing, or the files of the
    repositories it visited and then the combined file. *)
Lemma main_returned (fuel : nat) (w w' : world) :
  main fuel w = (Returned tt, w') ->
  files w' = files w \/
  exists (all_data : dict) (n : nat),
    files w' =
      (files w ++ map (repo_file (strftime_now (clock_reads w))) all_data
               ++ [combined_file (strftime_now (clock_reads w)) all_data])%list /\
    Forall repository_snapshot all_data /\
    dict_keys all_data = firstn n REPOSITORIES /\
    (0 < n)%nat.
Proof.
  unfold ApiFetch.main. intros H.
  apply bind_returned in H. destruct H as (remaining & w1 & Hcheck & H).
  apply bind_returned in H. destruct H as (low & w1' & Hlow & H).
  unfold lift in Hlow. injection Hlow as Hlow <-.
  pose proof (keeps_files_check_rate_limit GITHUB_TOKEN server localtime_ok w) as Hkeep.
  pose proof (keeps_clock_check_rate_limit w) as Hclock.
  rewrite Hcheck in Hkeep, Hclock. cbn [snd] in Hkeep, Hclock.
  destruct low.
  - left. unfold ret in H. injection H as <-. exact Hkeep.
  - right.
    apply bind_returned in H. destruct H as (t & w2 & Ht & H).
    unfold datetime_now in Ht. injection Ht as <- <-.
    apply bind_returned in H. destruct H as (all_data & w3 & Hloop & H).
    apply bind_returned in H. destruct H as ([] & w4 & Hsave & H).
    unfold ApiFetch.save_data in Hsave. injection Hsave as <-.
    unfold lift in H. injection H as _ <-.
    destruct (collect_snapshots _ _ _ _ _ _ _ Hloop)
      as (entries & n & Hkeys & Hn & Hdata & Hfiles & Hsnap).
    assert (Hnodup : NoDup (dict_keys entries)).
    { rewrite Hkeys. apply firstn_NoDup, REPOSITORIES_NoDup. }
    rewrite record_all_fresh in Hdata by exact Hnodup.
    cbn [app] in Hdata. subst all_data.
    exists entries, n. rewrite <- Hclock. cbn [files].
    split; [rewrite Hfiles; cbn [files]; rewrite Hkeep, <- app_assoc; reflexivity|].
    split; [exact Hsnap|]. split; [exact Hkeys|].
    destruct Hn as [Hn|Hn]; [discriminate Hn | exact Hn].
Qed.

Lemma repo_file_names (timestamp : string) (entries : dict) (n : nat) :
  dict_keys entries = firstn n REPOSITORIES ->
  NoDup (map fst (map (repo_file timestamp) entries
                  ++ [combined_file timestamp entries])%list).
Proof.
  intros Hkeys. rewrite map_app, map_map. cbn [map fst combined_file repo_file].
  rewrite <- (map_map fst (fun repo => "data/raw/" ++ repo_filename repo timestamp)).
  fold (dict_keys entries). rewrite Hkeys. unfold REPOSITORIES.
  destruct n as [|[|[|[|[|n]]]]]; cbn [firstn]; rewrite ?firstn_nil;
    cbn [map app]; unfold repo_filename, all_repos_filename;
    repeat constructor; cbn; intuition discriminate.
Qed.

(** X4.  When [main] returns, the pre-flight check returned a count.  If
    that count is below 100, [main] has written nothing.  If it is not, [main]
    has written one file per repository visited and then the combined file:
    each entry holds the five fields in their order, names its own
    repository, and carries at most 100 issues, none of them marked as a pull
    request, and at most 100 commits; the repositories visited are a
    non-empty prefix of [REPOSITORIES]. *)
Theorem main_writes_capped_snapshots (fuel : nat) (w : world) :
  fst (main fuel w) = Returned tt ->
  exists (remaining : json) (w1 : world),
    check_rate_limit w = (Returned remaining, w1) /\
    ((py_lt remaining 100 = Returned true /\
      files (snd (main fuel w)) = files w) \/
     (py_lt remaining 100 = Returned false /\
      exists (all_data : dict) (n : nat),
        files (snd (main fuel w)) =
          (files w ++ map (repo_file (strftime_now (clock_reads w))) all_data
                   ++ [combined_file (strftime_now (clock_reads w)) all_data])%list /\
        Forall repository_snapshot all_data /\
        dict_keys all_data = firstn n REPOSITORIES /\
        (0 < n)%nat)).
Proof.
  intros H.
  pose proof (keeps_files_check_rate_limit GITHUB_TOKEN server localtime_ok w) as Hkeep.
  pose proof (keeps_clock_check_rate_limit w) as Hclock.
  rewrite main_unfold in *.
  destruct (check_rate_limit w) as [[remaining| |] w1]; try discriminate.
  cbn [snd] in Hkeep, Hclock.
  exists remaining, w1. split; [reflexivity|].
  destruct (py_lt remaining 100) as [[|]| |]; try discriminate.
  - left. split; [reflexivity | exact Hkeep].
  - right. split; [reflexivity|].
    destruct (bind _ _ (tick w1)) as [o w'] eqn:Hrun. cbn [fst snd] in *. subst o.
    apply bind_returned in Hrun. destruct Hrun as (all_data & w3 & Hloop & Hrun).
    apply bind_returned in Hrun. destruct Hrun as ([] & w4 & Hsave & Hrun).
    unfold ApiFetch.save_data in Hsave. injection Hsave as <-.
    unfold lift in Hrun. injection Hrun as _ <-.
    destruct (collect_snapshots _ _ _ _ _ _ _ Hloop)
      as (entries & n & Hkeys & Hn & Hdata & Hfiles & Hsnap).
    assert (Hnodup : NoDup (dict_keys entries)).
    { rewrite Hkeys. apply firstn_NoDup, REPOSITORIES_NoDup. }
    rewrite record_all_fresh in Hdata by exact Hnodup.
    cbn [app] in Hdata. subst all_data.
    exists entries, n. rewrite <- Hclock. cbn [files].
    split; [rewrite Hfiles; cbn [files tick]; rewrite Hkeep, <- app_assoc;
            reflexivity|].
    split; [exact Hsnap|]. split; [exact Hkeys|].
    destruct Hn as [Hn|Hn]; [discriminate Hn | exact Hn].
Qed.

(** X5.  The files of one run of [main] that returns carry pairwise distinct
    names: no file of the run overwrites another. *)
Theorem main_never_overwrites_its_files (fuel : nat) (w : world) :
  fst (main fuel w) = Returned tt ->
  exists fs,
    files (snd (main fuel w)) = (files w ++ fs)%list /\
    NoDup (map fst fs).
Proof.
  intros H. destruct (main fuel w) as [o w'] eqn:Hmain. cbn [fst snd] in *.
  subst o. destruct (main_returned fuel w w' Hmain)
    as [Hnone|(all_data & n & Hfiles & _ & Hkeys & _)].
  - exists []. rewrite app_nil_r. split; [exact Hnone | constructor].
  - eexists. split; [exact Hfiles|].
    exact (repo_file_names _ _ _ Hkeys).
Qed.

(** X6.  When [main] does not return (a call raised, or a loop was cut
    off), the files it leaves are per-repository files only: the combined
    file is never written. *)
Theorem main_failure_leaves_no_combined_file (fuel : nat) (w : world) :
  fst (main fuel w) <> Returned tt ->
  exists fs,
    files (snd (main fuel w)) = (files w ++ fs)%list /\
    Forall (fun f => repo_file_of (strftime_now (clock_reads w)) (fst f)) fs /\
    times_written
      ("data/raw/" ++ all_repos_filename (strftime_now (clock_reads w))) fs = 0%nat.
Proof.
  intros Hfail.
  assert (Hnames : forall fs,
    Forall (fun f => repo_file_of (strftime_now (clock_reads w)) (fst f)) fs ->
    times_written
      ("data/raw/" ++ all_repos_filename (strftime_now (clock_reads w))) fs = 0%nat).
  { intros fs Hfs. apply times_written_elsewhere. revert Hfs.
    apply Forall_impl. intros f (repo & Hin & ->).
    apply repo_file_name, Hin. }
  assert (Hnone : files (snd (main fuel w)) = files w ->
    exists fs,
      files (snd (main fuel w)) = (files w ++ fs)%list /\
      Forall (fun f => repo_file_of (strftime_now (clock_reads w)) (fst f)) fs /\
      times_written
        ("data/raw/" ++ all_repos_filename (strftime_now (clock_reads w))) fs
      = 0%nat).
  { intros H. exists []. rewrite app_nil_r. repeat split; auto. }
  pose proof (keeps_files_check_rate_limit GITHUB_TOKEN server localtime_ok w) as Hkeep.
  pose proof (keeps_clock_check_rate_limit w) as Hclock.
  rewrite main_unfold in *.
  destruct (check_rate_limit w) as [[remaining| |] w1]; cbn [snd] in *;
    try (apply Hnone; exact Hkeep).
  destruct (py_lt remaining 100) as [[|]| |]; cbn [snd] in *;
    try (apply Hnone; exact Hkeep).
  clear Hnone. rewrite Hclock in *.
  set (ts := strftime_now (clock_reads w)) in *.
  unfold bind at 1 in Hfail. unfold bind at 1.
  destruct (writes_only_collect fuel ts REPOSITORIES [] (incl_refl _) (tick w1))
    as (fs & Hfs & Hall).
  cbn [files tick] in Hfs. rewrite Hkeep in Hfs.
  destruct (collect fuel ts REPOSITORIES [] (tick w1))
    as [[all_data| |] w2] eqn:Hloop; cbn [fst snd] in *;
    try (exists fs; auto).
  exfalso. apply Hfail.
  destruct (collect_returned _ _ _ _ _ _ _ _ _ _ _ Hloop)
    as (entries & n & Hkeys & Hdata & _ & Hsnap & _).
  assert (Hnodup : NoDup (dict_keys entries)).
  { rewrite Hkeys. apply firstn_NoDup, REPOSITORIES_NoDup. }
  rewrite record_all_fresh in Hdata by exact Hnodup.
  cbn [app] in Hdata. subst all_data.
  unfold bind, ApiFetch.save_data, lift. rewrite (summary_snapshots _ Hsnap).
  reflexivity.
Qed.

(** *** When [fetch_issues] ends *)

Lemma fetch_issues_loop_ends (repo : string) (max_issues : Z) :
  no_page_of_pull_requests_only server GITHUB_TOKEN repo ->
  forall (fuel : nat) (issues : list json) (page : Z) (w : world),
  max_issues - Z.of_nat (List.length issues) <= Z.of_nat fuel ->
  fst (fetch_issues_loop fuel repo max_issues issues page w) <> OutOfFuel.
Proof.
  intros Hserver.
  induction fuel as [|fuel IH]; intros issues page w Hfuel.
  - cbn [ApiFetch.fetch_issues_loop].
    destruct (Z.ltb_spec (Z.of_nat (List.length issues)) max_issues);
      [lia | discriminate].
  - destruct (Z.eqb_spec (status_code (answer w (issues_request repo page))) 200)
      as [Hok|Hfailed].
    + destruct (Hserver _ _ Hok) as (batch & Hpage & Hbatch).
      rewrite (fetch_issues_loop_page _ _ _ _ _ _ _ _ _ Hpage).
      destruct (Z.ltb_spec (Z.of_nat (List.length issues)) max_issues);
        [|discriminate].
      destruct batch as [|item batch']; [discriminate|]. cbv zeta.
      destruct (_ >=? _); [discriminate|].
      apply IH. rewrite length_app, length_map.
      destruct Hbatch as [Hbatch|Hbatch]; [discriminate|].
      destruct (issues_only (item :: batch')); [contradiction|].
      cbn [List.length]. lia.
    + cbn [ApiFetch.fetch_issues_loop].
      destruct (Z.of_nat (List.length issues) <? max_issues); [|discriminate].
      unfold bind at 1. rewrite requests_get_sent.
      fold (issues_request repo page).
      destruct (Z.eqb_spec (status_code (answer w (issues_request repo page))) 200);
        [contradiction|].
      cbn [bind lift ret]. unfold response_json.
      destruct (content _) as [j|]; cbn [obind]; [|discriminate].
      destruct j; cbn [py_get]; try discriminate.
      destruct (dict_get _ _); discriminate.
Qed.

(** X7.  As long as the server never sends a non-empty page made of pull
    requests only, [fetch_issues] ends after at most as many requests as the
    cap counts: with that much fuel it returns or raises. *)
Theorem fetch_issues_ends_without_pull_request_pages (fuel : nat)
    (repo : string) (cap : Z) (w : world) :
  no_page_of_pull_requests_only server GITHUB_TOKEN repo ->
  cap <= Z.of_nat fuel ->
  fst (fetch_issues fuel repo cap w) <> OutOfFuel.
Proof.
  intros Hserver Hfuel.
  pose proof (fetch_issues_loop_ends repo cap Hserver fuel [] 1 w) as H.
  unfold ApiFetch.fetch_issues, bind, ret.
  destruct (fetch_issues_loop fuel repo cap [] 1 w) as [[acc| |] w1];
    cbn [fst] in *; try discriminate.
  apply H. cbn [List.length]. lia.
Qed.

(** *** Lowering the cap *)

Lemma firstn_firstn_le {A} (l : list A) (n m : nat) :
  (n <= m)%nat -> firstn n (firstn m l) = firstn n l.
Proof.
  intros H. rewrite firstn_firstn. f_equal. lia.
Qed.

(** X15.  On a finite source, a lower cap only cuts the result shorter:
    what [fetch_issues] and [fetch_commits] return under the cap [N] is the
    start of what they return under any cap [M >= N]. *)
Theorem lower_cap_returns_a_prefix (fuel : nat) (repo : string) (N M : Z)
    (pages : list (list dict)) (w : world) :
  N <= M ->
  (List.length pages < fuel)%nat ->
  serves server (issues_request repo) 1 pages ->
  serves server (commits_request repo) 1 pages ->
  (exists issues,
     fst (fetch_issues fuel repo M w) = Returned issues /\
     fst (fetch_issues fuel repo N w) = Returned (firstn (Z.to_nat N) issues)) /\
  (exists commits,
     fst (fetch_commits fuel repo M w) = Returned commits /\
     fst (fetch_commits fuel repo N w) = Returned (firstn (Z.to_nat N) commits)).
Proof.
  intros Hle Hfuel Hissues Hcommits. split.
  - destruct (fetch_issues_serves GITHUB_TOKEN server fuel repo M pages w Hfuel Hissues)
      as (wM & HM & _).
    destruct (fetch_issues_serves GITHUB_TOKEN server fuel repo N pages w Hfuel Hissues)
      as (wN & HN & _).
    rewrite HM, HN. eexists. split; [reflexivity|]. cbn [fst].
    rewrite <- firstn_map, <- firstn_map, firstn_firstn_le by lia. reflexivity.
  - destruct (fetch_commits_serves GITHUB_TOKEN server fuel repo M pages w Hfuel Hcommits)
      as (wM & HM & _).
    destruct (fetch_commits_serves GITHUB_TOKEN server fuel repo N pages w Hfuel Hcommits)
      as (wN & HN & _).
    rewrite HM, HN. eexists. split; [reflexivity|]. cbn [fst].
    rewrite <- firstn_map, <- firstn_map, firstn_firstn_le by lia. reflexivity.
Qed.

End Coverage.

(** *** The facts at work on simulated servers *)

Lemma fetch_commits_ends_within_cap_witness :
  fst (fetch_commits "token" (replay shrinking_pages) 1 "numpy/numpy" 100
         initial_world) <> OutOfFuel /\
  (forall commits w',
     fetch_commits "token" (replay shrinking_pages) 1 "numpy/numpy" 100
       initial_world = (Returned commits, w') ->
     Z.of_nat (List.length commits) <= 100).
Proof.
  apply (fetch_commits_ends_within_cap "token" (replay shrinking_pages) 1
           "numpy/numpy" 100 initial_world); lia.
Defined.

Lemma fetch_loses_pages_on_unreadable_failure_witness :
  fst (fetch_issues "token"
         (broken_after "numpy/numpy" [[issue_7; pull_8]] bad_gateway) 2
         "numpy/numpy" 100 initial_world) = Raised JSONDecodeError /\
  fst (fetch_commits "token"
         (broken_after "numpy/numpy" [[issue_7; pull_8]] bad_gateway) 2
         "numpy/numpy" 100 initial_world) = Raised JSONDecodeError.
Proof.
  apply (fetch_loses_pages_on_unreadable_failure "token"
           (broken_after "numpy/numpy" [[issue_7; pull_8]] bad_gateway) 2
           "numpy/numpy" 100 [[issue_7; pull_8]] [] bad_gateway initial_world).
  - cbn. discriminate.
  - reflexivity.
  - cbn. lia.
  - cbn. lia.
  - repeat constructor. discriminate.
  - constructor.
  - split.
    + intros n [|k] Hk; [reflexivity | cbn in Hk; lia].
    + intros n. reflexivity.
  - split.
    + intros n k Hk. cbn in Hk. lia.
    + intros n. reflexivity.
  - cbn. lia.
  - cbn. lia.
Defined.

Lemma lower_cap_returns_a_prefix_witness :
  (exists issues,
     fst (fetch_issues "token" (replay shrinking_pages) 3 "numpy/numpy" 100
            initial_world) = Returned issues /\
     fst (fetch_issues "token" (replay shrinking_pages) 3 "numpy/numpy" 1
            initial_world) = Returned (firstn (Z.to_nat 1) issues)) /\
  (exists commits,
     fst (fetch_commits "token" (replay shrinking_pages) 3 "numpy/numpy" 100
            initial_world) = Returned commits /\
     fst (fetch_commits "token" (replay shrinking_pages) 3 "numpy/numpy" 1
            initial_world) = Returned (firstn (Z.to_nat 1) commits)).
Proof.
  apply (lower_cap_returns_a_prefix "token" (replay shrinking_pages) 3
           "numpy/numpy" 1 100 shrinking_pages initial_world).
  - lia.
  - cbn. lia.
  - apply replay_serves_issues.
  - apply replay_serves_commits.
Defined.

(** A run that passes the pre-flight check and writes, and a run that does
    not pass it and writes nothing. *)
Lemma main_writes_capped_snapshots_witness :
  (exists (all_data : dict) (n : nat),
     files (snd (main "token"
        (github (fun n => if (n <? 3)%nat then 5000 else 10) shrinking_pages)
        (fun _ => "20260101_120000") (fun _ => "2026-01-01T12:00:00")
        (fun _ => true) 3 initial_world)) =
       (files initial_world ++ map (repo_file "20260101_120000") all_data
          ++ [combined_file "20260101_120000" all_data])%list /\
     Forall repository_snapshot all_data /\
     dict_keys all_data = firstn n REPOSITORIES /\
     (0 < n)%nat) /\
  files (snd (main "token" (github (fun _ => 42) shrinking_pages)
     (fun _ => "20260101_120000") (fun _ => "2026-01-01T12:00:00")
     (fun _ => true) 3 initial_world)) = files initial_world.
Proof.
  split.
  - destruct (main_writes_capped_snapshots "token"
        (github (fun n => if (n <? 3)%nat then 5000 else 10) shrinking_pages)
        (fun _ => "20260101_120000") (fun _ => "2026-01-01T12:00:00")
        (fun _ => true) 3 initial_world)
      as (remaining & w1 & Hcheck & [[Hlow _]|[_ Hwritten]]).
    + vm_compute. reflexivity.
    + vm_compute in Hcheck. injection Hcheck as <- _. discriminate Hlow.
    + exact Hwritten.
  - destruct (main_writes_capped_snapshots "token"
        (github (fun _ => 42) shrinking_pages)
        (fun _ => "20260101_120000") (fun _ => "2026-01-01T12:00:00")
        (fun _ => true) 3 initial_world)
      as (remaining & w1 & Hcheck & [[_ Hnone]|[Hhigh _]]).
    + vm_compute. reflexivity.
    + exact Hnone.
    + vm_compute in Hcheck. injection Hcheck as <- _. discriminate Hhigh.
Defined.

Lemma main_never_overwrites_its_files_witness :
  exists fs,
    files (snd (main "token"
       (github (fun n => if (n <? 3)%nat then 5000 else 10) shrinking_pages)
       (fun _ => "20260101_120000") (fun _ => "2026-01-01T12:00:00")
       (fun _ => true) 3 initial_world)) = (files initial_world ++ fs)%list /\
    NoDup (map fst fs).
Proof.
  apply (main_never_overwrites_its_files "token"
           (github (fun n => if (n <? 3)%nat then 5000 else 10) shrinking_pages)
           (fun _ => "20260101_120000") (fun _ => "2026-01-01T12:00:00")
           (fun _ => true) 3 initial_world).
  vm_compute. reflexivity.
Defined.

Lemma main_failure_leaves_no_combined_file_witness :
  exists fs,
    files (snd (main "token" gateway_down
       (fun _ => "20260101_120000") (fun _ => "2026-01-01T12:00:00")
       (fun _ => true) 3 initial_world)) = (files initial_world ++ fs)%list /\
    Forall (fun f => repo_file_of "20260101_120000" (fst f)) fs /\
    times_written ("data/raw/" ++ all_repos_filename "20260101_120000") fs = 0%nat.
Proof.
  apply (main_failure_leaves_no_combined_file "token" gateway_down
           (fun _ => "20260101_120000") (fun _ => "2026-01-01T12:00:00")
           (fun _ => true) 3 initial_world).
  vm_compute. discriminate.
Defined.

Lemma fetch_issues_ends_without_pull_request_pages_witness :
  fst (fetch_issues "token" (replay shrinking_pages) 5 "numpy/numpy" 5
         initial_world) <> OutOfFuel.
Proof.
  apply (fetch_issues_ends_without_pull_request_pages "token"
           (replay shrinking_pages) 5 "numpy/numpy" 5 initial_world).
  - intros n page _. eexists. split; [reflexivity|].
    change (page_number (issues_request "token" "numpy/numpy" page)) with page.
    destruct (Z.to_nat (page - 1)) as [|[|[|i]]]; cbn;
      [right; discriminate | right; discriminate | left; reflexivity
      | left; reflexivity].
  - cbn. lia.
Defined.

End CollectorCoverage.

(** ** More facts about the Merger *)

Module MergerCoverage.
Import Py WriteToAll MergerFacts.

Lemma dict_get_set_same (d : dict) (key : string) (v : json) :
  dict_get (dict_set d key v) key = Some v.
Proof.
  induction d as [|[k old] rest IH]; cbn [dict_set dict_get].
  - rewrite String.eqb_refl. reflexivity.
  - destruct (String.eqb_spec k key) as [->|Hneq]; cbn [dict_get].
    + rewrite String.eqb_refl. reflexivity.
    + destruct (String.eqb_spec k key); [contradiction | exact IH].
Qed.

Lemma dict_get_set_other (d : dict) (key other : string) (v : json) :
  other <> key -> dict_get (dict_set d key v) other = dict_get d other.
Proof.
  intros Hneq. induction d as [|[k old] rest IH]; cbn [dict_set dict_get].
  - destruct (String.eqb_spec key other); [congruence | reflexivity].
  - destruct (String.eqb_spec k key) as [->|Hk]; cbn [dict_get].
    + destruct (String.eqb_spec key other); [congruence | reflexivity].
    + rewrite IH. reflexivity.
Qed.

Lemma dict_set_twice (d : dict) (key : string) (v : json) :
  dict_set (dict_set d key v) key v = dict_set d key v.
Proof.
  induction d as [|[k old] rest IH]; cbn [dict_set].
  - rewrite String.eqb_refl. reflexivity.
  - destruct (String.eqb_spec k key) as [->|Hk]; cbn [dict_set].
    + rewrite String.eqb_refl. reflexivity.
    + destruct (String.eqb_spec k key); [contradiction|]. rewrite IH. reflexivity.
Qed.

Lemma in_keys (key : string) (keys : list string) :
  existsb (String.eqb key) keys = true <-> In key keys.
Proof.
  rewrite existsb_exists. split.
  - intros (k & Hin & E). apply String.eqb_eq in E. subst. exact Hin.
  - intros Hin. exists key. split; [exact Hin | apply String.eqb_refl].
Qed.

(** Looking a key up after the stamping. *)
Lemma stamped_lookup (keys : list string) (fields fields' : dict) (key : string) :
  stamped keys fields = Some fields' ->
  dict_get fields' key =
  match dict_get fields key with
  | Some v =>
      if existsb (String.eqb key) keys then
        match v with
        | JObj nested => Some (JObj (dict_set nested "repository" (JStr key)))
        | _ => None
        end
      else Some v
  | None => None
  end.
Proof.
  revert fields'. induction fields as [|[k v] rest IH]; intros fields' H;
    cbn [stamped] in H.
  - injection H as <-. reflexivity.
  - destruct (stamped_entry keys (k, v)) as [[k' v']|] eqn:He; [|discriminate].
    destruct (stamped keys rest) as [rest'|]; [|discriminate].
    injection H as <-. unfold stamped_entry in He. cbn [fst snd] in He.
    cbn [dict_get].
    destruct (existsb (String.eqb k) keys) eqn:Hk.
    + destruct v; try discriminate. injection He as <- <-.
      destruct (String.eqb_spec k key) as [->|Hneq].
      * rewrite Hk. reflexivity.
      * apply IH. reflexivity.
    + injection He as <- <-.
      destruct (String.eqb_spec k key) as [->|Hneq].
      * rewrite Hk. reflexivity.
      * apply IH. reflexivity.
Qed.

Lemma stamped_holds_mappings (keys : list string) (fields fields' : dict)
    (key : string) (v : json) :
  stamped keys fields = Some fields' ->
  existsb (String.eqb key) keys = true ->
  dict_get fields key = Some v ->
  exists nested, v = JObj nested.
Proof.
  revert fields'. induction fields as [|[k v'] rest IH]; intros fields' Hs Hk Hget;
    [discriminate|].
  cbn [stamped] in Hs. cbn [dict_get] in Hget.
  destruct (stamped_entry keys (k, v')) as [entry|] eqn:He; [|discriminate].
  destruct (stamped keys rest) as [rest'|]; [|discriminate].
  destruct (String.eqb_spec k key) as [->|Hneq].
  - injection Hget as ->. unfold stamped_entry in He. cbn [fst snd] in He.
    rewrite Hk in He. destruct v; try discriminate. eauto.
  - exact (IH rest' eq_refl Hk Hget).
Qed.

(** X8.  What the stamping does to a file that holds a mapping and is
    loaded: the keys stay, in their order; an entry under no identifier is
    untouched; under an identifier the nested mapping gets [repository] set
    to the identifier, whatever it held, and keeps its other fields. *)
Theorem stamping_overwrites_repository_only (fields fields' : dict) :
  NoDup (dict_keys fields) ->
  loaded (Some (JObj fields)) = Some (JObj fields') ->
  dict_keys fields' = dict_keys fields /\
  (forall key, ~ In key KEYS -> dict_get fields' key = dict_get fields key) /\
  (forall key v, In key KEYS -> dict_get fields key = Some v ->
     exists nested nested',
       v = JObj nested /\
       dict_get fields' key = Some (JObj nested') /\
       dict_get nested' "repository" = Some (JStr key) /\
       forall field, field <> "repository" ->
                     dict_get nested' field = dict_get nested field).
Proof.
  intros Hnodup Hloaded. rewrite (loaded_mapping fields Hnodup) in Hloaded.
  destruct (stamped KEYS fields) as [stamped_fields|] eqn:Hs; [|discriminate].
  injection Hloaded as ->. split; [exact (stamped_keys _ _ _ Hs)|]. split.
  - intros key Hout. rewrite (stamped_lookup _ _ _ key Hs).
    destruct (dict_get fields key); [|reflexivity].
    destruct (existsb (String.eqb key) KEYS) eqn:Hk; [|reflexivity].
    apply in_keys in Hk. contradiction.
  - intros key v Hin Hget. pose proof (stamped_lookup _ _ _ key Hs) as Hlook.
    rewrite Hget in Hlook. apply in_keys in Hin. rewrite Hin in Hlook.
    destruct (stamped_holds_mappings _ _ _ _ _ Hs Hin Hget) as (nested & ->).
    exists nested, (dict_set nested "repository" (JStr key)).
    split; [reflexivity|]. split; [exact Hlook|].
    split; [apply dict_get_set_same|].
    intros field Hfield. apply dict_get_set_other. exact Hfield.
Qed.

Lemma stamped_entry_twice (keys : list string) (entry entry' : string * json) :
  stamped_entry keys entry = Some entry' ->
  stamped_entry keys entry' = Some entry'.
Proof.
  destruct entry as [k v]. unfold stamped_entry. cbn [fst snd].
  destruct (existsb (String.eqb k) keys) eqn:Hk.
  - destruct v; try discriminate. intros [= <-]. cbn [fst snd].
    rewrite Hk, dict_set_twice. reflexivity.
  - intros [= <-]. cbn [fst snd]. rewrite Hk. reflexivity.
Qed.

Lemma stamped_twice (keys : list string) (fields fields' : dict) :
  stamped keys fields = Some fields' -> stamped keys fields' = Some fields'.
Proof.
  revert fields'. induction fields as [|entry rest IH]; intros fields' H;
    cbn [stamped] in H.
  - injection H as <-. reflexivity.
  - destruct (stamped_entry keys entry) as [entry'|] eqn:He; [|discriminate].
    destruct (stamped keys rest) as [rest'|]; [|discriminate].
    injection H as <-. cbn [stamped].
    rewrite (stamped_entry_twice _ _ _ He), (IH rest' eq_refl). reflexivity.
Qed.

(** X9.  The stamping is idempotent: a mapping that was loaded once is
    loaded unchanged when it is scanned again. *)
Theorem stamping_is_idempotent (fields : dict) (data : json) :
  NoDup (dict_keys fields) ->
  loaded (Some (JObj fields)) = Some data ->
  loaded (Some data) = Some data.
Proof.
  intros Hnodup Hloaded. rewrite (loaded_mapping fields Hnodup) in Hloaded.
  destruct (stamped KEYS fields) as [fields'|] eqn:Hs; [|discriminate].
  injection Hloaded as <-.
  rewrite loaded_mapping.
  - rewrite (stamped_twice _ _ _ Hs). reflexivity.
  - rewrite (stamped_keys _ _ _ Hs). exact Hnodup.
Qed.

(** *** Which files count *)

Lemma last_loaded_app (before after : list (string * option json)) :
  forall d, last_loaded (before ++ after)%list d
            = last_loaded after (last_loaded before d).
Proof.
  induction before as [|[name content] rest IH]; intros d; [reflexivity|].
  cbn [app last_loaded]. destruct (loaded content); apply IH.
Qed.

Lemma last_loaded_skipped (json_files : list (string * option json)) :
  forallb skipped json_files = true ->
  forall d, last_loaded json_files d = d.
Proof.
  induction json_files as [|[name content] rest IH]; intros H d; [reflexivity|].
  cbn [forallb] in H. apply andb_prop in H. destruct H as [Hskip Hrest].
  unfold skipped in Hskip. cbn [snd] in Hskip. cbn [last_loaded].
  destruct (loaded content); [discriminate | apply IH, Hrest].
Qed.

Lemma last_loaded_found (json_files : list (string * option json)) :
  forallb skipped json_files = false ->
  forall d d', last_loaded json_files d = last_loaded json_files d'.
Proof.
  induction json_files as [|[name content] rest IH]; intros H d d';
    [discriminate|].
  cbn [forallb] in H. cbn [last_loaded]. unfold skipped at 1 in H.
  cbn [snd] in H. destruct (loaded content) as [data|]; [reflexivity|].
  cbn [negb andb] in H. apply IH, H.
Qed.

Lemma main_merged (timestamp : string)
    (json_files : list (string * option json)) :
  json_files <> [] ->
  main timestamp (Some json_files) =
  [("data/raw/" ++ "combined_data_" ++ timestamp ++ ".json",
    JObj (merged (last_loaded json_files None)))].
Proof.
  intros Hsome. unfold main, save_data.
  destruct json_files; [contradiction|].
  change (combine (p :: json_files) [])
    with (combine (p :: json_files) (merged None)).
  rewrite combine_merged. reflexivity.
Qed.

Section Listing.

Variable timestamp : string.

(** X10.  Only the last file that is loaded counts: whatever stands before
    a listing in which some file is loaded has no effect on the merged
    document, and files that are skipped have none wherever they stand. *)
Theorem merger_keeps_last_loaded_file_only
    (before after : list (string * option json)) :
  forallb skipped after = false ->
  main timestamp (Some (before ++ after)%list) = main timestamp (Some after) /\
  (forall skippable, forallb skipped skippable = true ->
     main timestamp (Some (after ++ skippable)%list) = main timestamp (Some after)).
Proof.
  intros Hfound.
  assert (Hafter : after <> []) by (destruct after; [discriminate | discriminate]).
  pose proof (main_merged timestamp) as Hmain.
  split.
  - rewrite !Hmain; auto.
    + rewrite last_loaded_app.
      rewrite (last_loaded_found after Hfound _ None). reflexivity.
    + destruct before; [exact Hafter | discriminate].
  - intros skippable Hskip. rewrite !Hmain; auto.
    + rewrite last_loaded_app, (last_loaded_skipped _ Hskip). reflexivity.
    + destruct after; [contradiction | discriminate].
Qed.

(** X11.  When every file of a non-empty listing is skipped, the Merger
    still writes its output file, and the document in it is empty. *)
Theorem merger_writes_empty_document (json_files : list (string * option json)) :
  json_files <> [] ->
  forallb skipped json_files = true ->
  main timestamp (Some json_files) =
    [("data/raw/" ++ "combined_data_" ++ timestamp ++ ".json", JObj [])].
Proof.
  intros Hsome Hskip.
  rewrite (main_merged timestamp json_files Hsome),
    (last_loaded_skipped _ Hskip).
  reflexivity.
Qed.

End Listing.

(** *** Files that hold no mapping *)

Lemma stamp_keys_array (items : list json) (keys : list string) :
  forall key : option string,
  stamp_keys keys key (JArr items) =
  if existsb (fun k => existsb (is_str k) items) keys then Raised TypeError
  else Returned (match keys with [] => key | _ => Some (last keys "") end,
                 JArr items).
Proof.
  induction keys as [|k rest IH]; intros key; [reflexivity|].
  cbn [stamp_keys py_in obind existsb].
  destruct (existsb (is_str k) items); [reflexivity|].
  cbn [orb]. rewrite IH.
  destruct (existsb _ rest); [reflexivity|]. destruct rest; reflexivity.
Qed.

Lemma stamp_keys_text (s : string) (keys : list string) :
  forall key : option string,
  stamp_keys keys key (JStr s) =
  if existsb (fun k => contains_substring k s) keys then Raised TypeError
  else Returned (match keys with [] => key | _ => Some (last keys "") end,
                 JStr s).
Proof.
  induction keys as [|k rest IH]; intros key; [reflexivity|].
  cbn [stamp_keys py_in obind existsb].
  destruct (contains_substring k s); [reflexivity|].
  cbn [orb]. rewrite IH.
  destruct (existsb _ rest); [reflexivity|]. destruct rest; reflexivity.
Qed.

(** X12.  A file that parses but holds no mapping: [null], a boolean or a
    number is always skipped; a list is taken as it is unless one of its
    items is the text of an identifier, and a text unless an identifier
    occurs in it; then it is skipped. *)
Theorem merger_on_files_without_mapping :
  loaded (Some JNull) = None /\
  (forall b, loaded (Some (JBool b)) = None) /\
  (forall z, loaded (Some (JInt z)) = None) /\
  (forall f, loaded (Some (JFloat f)) = None) /\
  (forall items,
     loaded (Some (JArr items)) =
     if existsb (fun key => existsb (is_str key) items) KEYS then None
     else Some (JArr items)) /\
  (forall s,
     loaded (Some (JStr s)) =
     if existsb (fun key => contains_substring key s) KEYS then None
     else Some (JStr s)).
Proof.
  repeat split; try reflexivity.
  - intros items. unfold loaded. rewrite stamp_keys_array.
    destruct (existsb _ KEYS); reflexivity.
  - intros s. unfold loaded. rewrite stamp_keys_text.
    destruct (existsb _ KEYS); reflexivity.
Qed.

(** X13.  The Merger writes into the directory it scans.  When the document
    of an earlier run, a mapping under ["mlflow/mlflow"], is the last file
    loaded, the new document wraps it once more, and [repository] in the
    inner mapping now reads ["mlflow/mlflow"]. *)
Theorem merger_wraps_its_own_output (before : list (string * option json))
    (name : string) (previous : dict) :
  combine (before ++ [(name, Some (JObj (merged (Some (JObj previous)))))])%list []
  = merged (Some (JObj (merged (Some
      (JObj (dict_set previous "repository" (JStr "mlflow/mlflow"))))))).
Proof.
  change (combine ?l []) with (combine l (merged None)).
  rewrite combine_merged, last_loaded_app. reflexivity.
Qed.

Lemma stamping_overwrites_repository_only_witness :
  dict_keys [("numpy/numpy", JObj [("repository", JStr "numpy/numpy");
                                   ("issues", JArr [])]);
             ("note", JStr "kept")]
  = dict_keys [("numpy/numpy", JObj [("repository", JStr "x");
                                     ("issues", JArr [])]);
               ("note", JStr "kept")] /\
  (forall key, ~ In key KEYS ->
     dict_get [("numpy/numpy", JObj [("repository", JStr "numpy/numpy");
                                     ("issues", JArr [])]);
               ("note", JStr "kept")] key
     = dict_get [("numpy/numpy", JObj [("repository", JStr "x");
                                       ("issues", JArr [])]);
                 ("note", JStr "kept")] key) /\
  (forall key v, In key KEYS ->
     dict_get [("numpy/numpy", JObj [("repository", JStr "x");
                                     ("issues", JArr [])]);
               ("note", JStr "kept")] key = Some v ->
     exists nested nested',
       v = JObj nested /\
       dict_get [("numpy/numpy", JObj [("repository", JStr "numpy/numpy");
                                       ("issues", JArr [])]);
                 ("note", JStr "kept")] key = Some (JObj nested') /\
       dict_get nested' "repository" = Some (JStr key) /\
       forall field, field <> "repository" ->
                     dict_get nested' field = dict_get nested field).
Proof.
  apply (stamping_overwrites_repository_only
           [("numpy/numpy", JObj [("repository", JStr "x"); ("issues", JArr [])]);
            ("note", JStr "kept")]).
  - repeat constructor; cbn; intuition discriminate.
  - reflexivity.
Defined.

Lemma stamping_is_idempotent_witness :
  loaded (Some (JObj [("numpy/numpy",
                       JObj [("repository", JStr "numpy/numpy")])]))
  = Some (JObj [("numpy/numpy", JObj [("repository", JStr "numpy/numpy")])]).
Proof.
  apply (stamping_is_idempotent
           [("numpy/numpy", JObj [("repository", JStr "old")])]).
  - repeat constructor. cbn. tauto.
  - reflexivity.
Defined.

Lemma merger_keeps_last_loaded_file_only_witness :
  main "20260101_120000" (Some (unstampable_last ++ restamped)%list)
  = main "20260101_120000" (Some restamped) /\
  (forall skippable, forallb skipped skippable = true ->
     main "20260101_120000" (Some (restamped ++ skippable)%list)
     = main "20260101_120000" (Some restamped)).
Proof.
  apply (merger_keeps_last_loaded_file_only "20260101_120000"
           unstampable_last restamped).
  reflexivity.
Defined.

Lemma merger_writes_empty_document_witness :
  main "20260101_120000"
    (Some [("broken.json", None);
           ("numbers.json", Some (JObj [("numpy/numpy", JInt 5)]))])
  = [("data/raw/" ++ "combined_data_" ++ "20260101_120000" ++ ".json", JObj [])].
Proof.
  apply (merger_writes_empty_document "20260101_120000").
  - discriminate.
  - reflexivity.
Defined.

End MergerCoverage.

(** ** The Merger on the files of the Collector *)

Module Pipeline.
Import Py.

Lemma snapshot_stamped (keys : list string) (entry : string * json) :
  ApiFetch.repository_snapshot entry ->
  WriteToAll.stamped_entry keys entry = Some entry.
Proof.
  destruct entry as [repo data].
  intros (collected & info & issues & commits & Hdata & _). cbn [fst snd] in Hdata.
  subst data. unfold WriteToAll.stamped_entry. cbn [fst snd].
  destruct (existsb (String.eqb repo) keys); reflexivity.
Qed.

Lemma snapshots_stamped (keys : list string) (all_data : dict) :
  Forall ApiFetch.repository_snapshot all_data ->
  WriteToAll.stamped keys all_data = Some all_data.
Proof.
  induction 1 as [|entry rest Hentry _ IH]; [reflexivity|].
  cbn [WriteToAll.stamped]. rewrite (snapshot_stamped keys entry Hentry), IH.
  reflexivity.
Qed.

Section Run.

Variable GITHUB_TOKEN : string.
Variable server : nat -> ApiFetch.request -> ApiFetch.response.
Variable strftime_now : nat -> string.
Variable isoformat_now : nat -> string.
Variable localtime_ok : json -> bool.
Variable timestamp : string.

Local Abbreviation collector :=
  (ApiFetch.main GITHUB_TOKEN server strftime_now isoformat_now localtime_ok).

(** X14.  The Merger run on a directory that holds the files of one run of
    the Collector, in the order they were written, stamps nothing anew (every
    snapshot already names its repository) and writes one document: the whole
    combined snapshot of the run under the key ["mlflow/mlflow"]. *)
Theorem merger_wraps_combined_snapshot (fuel : nat) (w : ApiFetch.world) :
  fst (collector fuel w) = Returned tt ->
  ApiFetch.files w = [] ->
  ApiFetch.files (snd (collector fuel w)) <> [] ->
  exists all_data : dict,
    ApiFetch.files (snd (collector fuel w)) =
      (map (ApiFetch.repo_file (strftime_now (ApiFetch.clock_reads w))) all_data
       ++ [ApiFetch.combined_file (strftime_now (ApiFetch.clock_reads w)) all_data])%list /\
    WriteToAll.loaded (Some (JObj all_data)) = Some (JObj all_data) /\
    WriteToAll.main timestamp
      (Some (WriteToAll.listing_of (ApiFetch.files (snd (collector fuel w))))) =
    [("data/raw/" ++ "combined_data_" ++ timestamp ++ ".json",
      JObj [("mlflow/mlflow", JObj all_data)])].
Proof.
  intros Hrun Hfresh Hwrote.
  destruct (collector fuel w) as [o w'] eqn:Hmain. cbn [fst snd] in *. subst o.
  destruct (CollectorCoverage.main_returned _ _ _ _ _ fuel w w' Hmain)
    as [Hnone|(all_data & n & Hfiles & Hsnap & Hkeys & _)].
  - rewrite Hnone, Hfresh in Hwrote. contradiction.
  - rewrite Hfresh in Hfiles. cbn [app] in Hfiles.
    exists all_data. split; [exact Hfiles|].
    assert (Hloaded : WriteToAll.loaded (Some (JObj all_data)) = Some (JObj all_data)).
    { rewrite MergerFacts.loaded_mapping.
      - rewrite (snapshots_stamped _ _ Hsnap). reflexivity.
      - rewrite Hkeys.
        apply CollectorFacts.firstn_NoDup, CollectorFacts.REPOSITORIES_NoDup. }
    split; [exact Hloaded|].
    rewrite Hfiles. unfold WriteToAll.listing_of. rewrite map_app.
    cbn [map ApiFetch.combined_file fst snd].
    rewrite MergerCoverage.main_merged.
    + rewrite MergerCoverage.last_loaded_app. cbn [WriteToAll.last_loaded].
      rewrite Hloaded. reflexivity.
    + intros Hnil. apply app_eq_nil in Hnil. destruct Hnil. discriminate.
Qed.

End Run.

Lemma merger_wraps_combined_snapshot_witness :
  exists all_data : dict,
    ApiFetch.files (snd (ApiFetch.main "token"
       (ApiFetch.github (fun n => if (n <? 3)%nat then 5000 else 10)
          ApiFetch.shrinking_pages)
       (fun _ => "20260101_120000") (fun _ => "2026-01-01T12:00:00")
       (fun _ => true) 3 ApiFetch.initial_world)) =
      (map (ApiFetch.repo_file "20260101_120000") all_data
       ++ [ApiFetch.combined_file "20260101_120000" all_data])%list /\
    WriteToAll.loaded (Some (JObj all_data)) = Some (JObj all_data) /\
    WriteToAll.main "20260102_090000"
      (Some (WriteToAll.listing_of (ApiFetch.files (snd (ApiFetch.main "token"
         (ApiFetch.github (fun n => if (n <? 3)%nat then 5000 else 10)
            ApiFetch.shrinking_pages)
         (fun _ => "20260101_120000") (fun _ => "2026-01-01T12:00:00")
         (fun _ => true) 3 ApiFetch.initial_world))))) =
    [("data/raw/" ++ "combined_data_" ++ "20260102_090000" ++ ".json",
      JObj [("mlflow/mlflow", JObj all_data)])].
Proof.
  apply (merger_wraps_combined_snapshot "token"
           (ApiFetch.github (fun n => if (n <? 3)%nat then 5000 else 10)
              ApiFetch.shrinking_pages)
           (fun _ => "20260101_120000") (fun _ => "2026-01-01T12:00:00")
           (fun _ => true) "20260102_090000" 3 ApiFetch.initial_world).
  - vm_compute. reflexivity.
  - reflexivity.
  - vm_compute. discriminate.
Defined.

End Pipeline.
